(** * BDsensor: the probing and sensor-protocol engine of klipper_Beta/BDsensor.py

    A shallow embedding of the decision logic of [BDsensor.py] (sensor
    channel, virtual endstop, multi-probe session, sample acquisition,
    continuous scan, M102 diagnostics) together with the properties its
    specification states about it.

    Numeric model.  Python floats are embedded as exact rationals ([Q]).
    Every sensor distance is an integer raw code divided by [100.00], and the
    protocol thresholds it is compared with ([10.24], [3.8], [3.9]) are
    two-decimal literals; for such values the comparison of the correctly
    rounded doubles agrees with the comparison of the rationals, so the
    branches taken are the ones the interpreter takes.

    Effects.  The Python objects are singletons that live as long as the
    printer; they are gathered in one [world] record.  A method is a function
    [world -> world * result A]: the world is threaded through, and an
    exception leaves the world as it was when it was raised, exactly as an
    attribute written before a [raise] stays written.  Calls into Klipper
    (sensor controller, homing, toolhead clock, finalize callback) are
    answered by oracles stored in the world, and every command sent out is
    appended to a trace. *)

From Stdlib Require Import ZArith QArith List String Bool Lia Lqa.
From Stdlib Require Import Permutation Sorted.
Import ListNotations.

Local Open Scope Z_scope.

(** ** Data model *)

(** A position as the probing code keeps it: [pos[:3]]. *)
Record pos3 : Type := mk_pos { px : Q; py : Q; pz : Q }.

(** [self.multi] of the endstop wrapper: the strings ['OFF'], ['FIRST'], ['ON']. *)
Inductive multi_state : Type := OFF | FIRST | ON.

(** Text handed to the user or carried by an exception.  Formatted numbers
    keep their numeric payload instead of the rendered digits. *)
Inductive message : Type :=
| Text (s : string)
| Msg_data_error (v : Q)          (* "Bed Distance Sensor data error:%.2f" *)
| Msg_out_of_range (v : Q)        (* "Bed Distance Sensor, out of range.:%.2f " *)
| Msg_probe_at (x y z : Q)        (* "probe at %.3f,%.3f is z=%.6f" *)
| Msg_G92 (z : Q)                 (* "G92 Z%.3f" *)
| Msg_triggered_at (z : Q)        (* "The actually triggered position of Z is %.3f mm" *)
| Msg_int (n : Z)                 (* str(intd) *)
| Msg_mm (v : Q)                  (* str(self.bd_value)+"mm" *)
| Msg_chars (codes : list Z)      (* ''.join(map(chr, x)) *)
| Msg_points_on_x (n : nat).      (* "Seems the mesh direction is not X, points count on x is %d" *)

(** The exception classes the module raises or catches. *)
Inductive exn_kind : Type :=
| command_error      (* printer.command_error, which is also gcmd.error *)
| config_error
| AttributeError
| IndexError
| TypeError
| ValueError
| ZeroDivisionError.

Record exn : Type := Exn { kind : exn_kind; str : message }.

Definition exn_kind_eqb (a b : exn_kind) : bool :=
  match a, b with
  | command_error, command_error | config_error, config_error
  | AttributeError, AttributeError | IndexError, IndexError
  | TypeError, TypeError | ValueError, ValueError
  | ZeroDivisionError, ZeroDivisionError => true
  | _, _ => false
  end.

(** How a call ends.  [Unfinished] is not a Python outcome: it marks a run
    that the embedding does not follow to its end (a loop still running when
    the supplied number of iterations is used up, or a selector whose
    stepper-level script is not embedded). *)
Inductive result (A : Type) : Type :=
| Return (a : A)
| Raise (e : exn)
| Unfinished.
Arguments Return {A} a.
Arguments Raise {A} e.
Arguments Unfinished {A}.

(** Everything the module makes happen outside itself, oldest event last. *)
Inductive event : Type :=
| Ev_I2C_BD_send (data : string)
| Ev_I2C_BD_receive (data : string) (response : Z)
| Ev_Z_Move_Live (data : string)
| Ev_respond_info (m : message)
| Ev_respond_raw (m : message)
| Ev_run_script (m : message)
| Ev_manual_move (x y z : option Q) (speed : Q)
| Ev_probing_move (target : pos3) (speed : Q)
| Ev_wait_moves
| Ev_dwell (t : Q)
| Ev_sleep (t : Q)
| Ev_finalize (results : list pos3).

(** What the scan loop reads from the toolhead at one instant. *)
Record toolhead_obs : Type := {
  estimated_print_time : Q;      (* toolhead.mcu.estimated_print_time(curtime) *)
  print_time : Q;                (* toolhead.print_time *)
  special_queuing_state : bool;  (* truth value of toolhead.special_queuing_state *)
  can_pause : bool;              (* toolhead.can_pause *)
  fault : option exn             (* the toolhead call raises instead of answering *)
}.

(** The collaborators, as oracles. *)
Record environment : Type := {
  sensor : nat -> Z;                       (* answer to the k-th I2C_BD_receive round trip *)
  probing_move : nat -> pos3 + message;    (* k-th phoming.probing_move: end position, or the
                                              reason of the command_error it raises *)
  timeline : nat -> toolhead_obs;          (* toolhead state at the k-th reactor instant *)
  finalize_callback : list pos3 -> bool    (* true when the callback answers "retry" *)
}.

(** The fields of [BDsensorEndstopWrapper] the decision logic reads or writes. *)
Record bd_wrapper : Type := {
  position_endstop : Q;
  stow_on_each_sample : bool;
  no_stop_probe : option string;
  multi : multi_state;
  homeing : Z;
  bd_value : Q
}.

(** The fields of [PrinterProbe]. *)
Record printer_probe : Type := {
  multi_probe_pending : bool;
  z_position : Q;
  x_offset : Q;
  y_offset : Q;
  z_offset : Q
}.

(** The fields of [ProbePointsHelper]. *)
Record points_helper : Type := {
  probe_points : list (Q * Q);
  results : list pos3;
  speed : Q;
  lift_speed : Q;
  horizontal_move_z : Q;
  default_horizontal_move_z : Q;
  use_offsets : bool;
  probe_offsets : pos3
}.

(** The toolhead as the module sees it. *)
Record toolhead_state : Type := {
  position : pos3;           (* toolhead.get_position()[:3] *)
  z_homed : bool             (* 'z' in toolhead.get_status(curtime)['homed_axes'] *)
}.

Record world : Type := {
  env : environment;
  queries : nat;             (* I2C_BD_receive round trips made so far *)
  probes : nat;              (* probing moves made so far *)
  tick : nat;                (* reactor instants consumed so far *)
  toolhead : toolhead_state;
  mcu_probe : bd_wrapper;
  probe : printer_probe;
  helper : points_helper;
  trace : list event         (* newest event first *)
}.

(** The parameters of one G-code command, after [gcmd.get_*] resolved them
    against the configured defaults. *)
Record gcmd : Type := {
  get_command : string;
  METHOD : string;               (* gcmd.get('METHOD', 'automatic').lower() *)
  PROBE_SPEED : Q;
  LIFT_SPEED : Q;
  SAMPLES : nat;
  SAMPLE_RETRACT_DIST : Q;
  SAMPLES_TOLERANCE : Q;
  SAMPLES_TOLERANCE_RETRIES : nat;
  SAMPLES_RESULT : string;
  HORIZONTAL_MOVE_Z : Q
}.

(** ** The effect monad *)

Definition M (A : Type) : Type := world -> world * result A.

Definition ret {A} (a : A) : M A := fun w => (w, Return a).

Definition bind {A B} (m : M A) (k : A -> M B) : M B :=
  fun w => match m w with
           | (w', Return a) => k a w'
           | (w', Raise e) => (w', Raise e)
           | (w', Unfinished) => (w', Unfinished)
           end.

Definition raise {A} (k : exn_kind) (m : message) : M A :=
  fun w => (w, Raise (Exn k m)).

Definition unfinished {A} : M A := fun w => (w, Unfinished).

Declare Scope py_scope.
Delimit Scope py_scope with py.
Notation "x <- m ;; k" := (bind m (fun x => k))
  (at level 61, m at next level, right associativity) : py_scope.
Notation "m ;; k" := (bind m (fun _ => k))
  (at level 61, right associativity) : py_scope.
Local Open Scope py_scope.

(** [try: body / except <handled>: handler]. *)
Definition try_except {A} (body : M A) (handled : exn -> bool)
    (handler : exn -> M A) : M A :=
  fun w => match body w with
           | (w', Raise e) => if handled e then handler e w' else (w', Raise e)
           | r => r
           end.

Definition gets {A} (f : world -> A) : M A := fun w => (w, Return (f w)).
Definition modify (f : world -> world) : M unit := fun w => (f w, Return tt).
Definition when (b : bool) (m : M unit) : M unit := if b then m else ret tt.

(** *** Field updates *)

Definition set_trace (t : list event) (w : world) : world :=
  let '(Build_world e q p k th b pr h _) := w in Build_world e q p k th b pr h t.

Definition set_queries (n : nat) (w : world) : world :=
  let '(Build_world e _ p k th b pr h t) := w in Build_world e n p k th b pr h t.

Definition set_probes (n : nat) (w : world) : world :=
  let '(Build_world e q _ k th b pr h t) := w in Build_world e q n k th b pr h t.

Definition set_tick (n : nat) (w : world) : world :=
  let '(Build_world e q p _ th b pr h t) := w in Build_world e q p n th b pr h t.

Definition set_toolhead (x : toolhead_state) (w : world) : world :=
  let '(Build_world e q p k _ b pr h t) := w in Build_world e q p k x b pr h t.

Definition set_mcu_probe (x : bd_wrapper) (w : world) : world :=
  let '(Build_world e q p k th _ pr h t) := w in Build_world e q p k th x pr h t.

Definition set_probe (x : printer_probe) (w : world) : world :=
  let '(Build_world e q p k th b _ h t) := w in Build_world e q p k th b x h t.

Definition set_helper (x : points_helper) (w : world) : world :=
  let '(Build_world e q p k th b pr _ t) := w in Build_world e q p k th b pr x t.

Definition set_bd_value (v : Q) (b : bd_wrapper) : bd_wrapper :=
  let '(Build_bd_wrapper pe st ns m h _) := b in Build_bd_wrapper pe st ns m h v.

Definition set_multi (x : multi_state) (b : bd_wrapper) : bd_wrapper :=
  let '(Build_bd_wrapper pe st ns _ h v) := b in Build_bd_wrapper pe st ns x h v.

Definition set_homeing (x : Z) (b : bd_wrapper) : bd_wrapper :=
  let '(Build_bd_wrapper pe st ns m _ v) := b in Build_bd_wrapper pe st ns m x v.

Definition set_multi_probe_pending (x : bool) (b : printer_probe) : printer_probe :=
  let '(Build_printer_probe _ zp xo yo zo) := b in Build_printer_probe x zp xo yo zo.

Definition set_position (p : pos3) (t : toolhead_state) : toolhead_state :=
  let '(Build_toolhead_state _ h) := t in Build_toolhead_state p h.

Definition set_results (r : list pos3) (h : points_helper) : points_helper :=
  let '(Build_points_helper pp _ sp ls hz dz uo po) := h in
  Build_points_helper pp r sp ls hz dz uo po.

Definition set_horizontal_move_z (z : Q) (h : points_helper) : points_helper :=
  let '(Build_points_helper pp r sp ls _ dz uo po) := h in
  Build_points_helper pp r sp ls z dz uo po.

Definition set_lift_speed (v : Q) (h : points_helper) : points_helper :=
  let '(Build_points_helper pp r sp _ hz dz uo po) := h in
  Build_points_helper pp r sp v hz dz uo po.

Definition set_probe_offsets (o : pos3) (h : points_helper) : points_helper :=
  let '(Build_points_helper pp r sp ls hz dz uo _) := h in
  Build_points_helper pp r sp ls hz dz uo o.

(** *** Calls into the collaborators *)

Definition emit (e : event) : M unit :=
  modify (fun w => set_trace (e :: trace w) w).

Definition respond_info (m : message) : M unit := emit (Ev_respond_info m).
Definition respond_raw (m : message) : M unit := emit (Ev_respond_raw m).
Definition wait_moves : M unit := emit Ev_wait_moves.
Definition dwell (t : Q) : M unit := emit (Ev_dwell t).
Definition sleep (t : Q) : M unit := emit (Ev_sleep t).

Definition get_position : M pos3 := gets (fun w => position (toolhead w)).

(** [toolhead.manual_move(coord, speed)]: a [None] coordinate keeps its value. *)
Definition manual_move (x y z : option Q) (v : Q) : M unit :=
  emit (Ev_manual_move x y z v) ;;
  modify (fun w =>
    let p := position (toolhead w) in
    let p' := mk_pos (match x with Some a => a | None => px p end)
                     (match y with Some a => a | None => py p end)
                     (match z with Some a => a | None => pz p end) in
    set_toolhead (set_position p' (toolhead w)) w).

(** [MCU_I2C_BD.I2C_BD_send]: fire and forget. *)
Definition I2C_BD_send (data : string) : M unit := emit (Ev_I2C_BD_send data).

(** [self.I2C_BD_receive_cmd.send([self.oid, data])] followed by
    [int(pr['response'])]: one blocking round trip, the controller answering
    with the digits of an integer. *)
Definition I2C_BD_receive (data : string) : M Z :=
  fun w =>
    let r := sensor (env w) (queries w) in
    (set_trace (Ev_I2C_BD_receive data r :: trace w) (set_queries (S (queries w)) w),
     Return r).

Definition Z_Move_Live (data : string) : M unit := emit (Ev_Z_Move_Live data).

(** [reactor.pause(curtime + 0.001)]: the next reactor instant. *)
Definition pause : M unit := modify (fun w => set_tick (S (tick w)) w).

(** Reading the toolhead at the current instant. *)
Definition observe : M toolhead_obs :=
  fun w => let o := timeline (env w) (tick w) in
           match fault o with
           | Some e => (w, Raise e)
           | None => (w, Return o)
           end.

(** ** Python list primitives *)

(** [max(l)] and [min(l)] of a list with first element [x]: the first
    extremal element wins. *)
Definition py_max (x : Q) (l : list Q) : Q :=
  fold_left (fun m y => if Qle_bool y m then m else y) l x.
Definition py_min (x : Q) (l : list Q) : Q :=
  fold_left (fun m y => if Qle_bool m y then m else y) l x.

(** [sum(l)]: starts from [0] and adds from the left. *)
Definition py_sum (l : list Q) : Q := fold_left Qplus l 0%Q.

(** [l[lo:hi]] for integer bounds: a negative bound counts from the end,
    and both are clamped to the list. *)
Definition py_slice {A} (lo hi : Z) (l : list A) : list A :=
  let n := Z.of_nat (List.length l) in
  let norm i := Z.max 0 (Z.min n (if i <? 0 then i + n else i)) in
  let a := norm lo in
  let b := norm hi in
  firstn (Z.to_nat (b - a)) (skipn (Z.to_nat a) l).

(** [sorted(positions, key=lambda p: p[2])]: stable, ascending in z. *)
Fixpoint insert_by_z (p : pos3) (l : list pos3) : list pos3 :=
  match l with
  | [] => [p]
  | q :: r => if Qle_bool (pz p) (pz q) then p :: q :: r
              else q :: insert_by_z p r
  end.
Definition sorted_by_z (l : list pos3) : list pos3 :=
  fold_right insert_by_z [] l.

(** [l[i]] for [0 <= i]. *)
Definition py_index {A} (l : list A) (i : nat) : M A :=
  match nth_error l i with
  | Some a => ret a
  | None => raise IndexError (Text "list index out of range")
  end.

(** ** class BDsensorEndstopWrapper *)

Module BDsensorEndstopWrapper.

(** [intr/100.00]. *)
Definition calibrated (intr : Z) : Q := inject_Z intr / 100.

Definition store_bd_value (v : Q) : M unit :=
  modify (fun w => set_mcu_probe (set_bd_value v (mcu_probe w)) w).
Definition store_multi (m : multi_state) : M unit :=
  modify (fun w => set_mcu_probe (set_multi m (mcu_probe w)) w).
Definition store_homeing (h : Z) : M unit :=
  modify (fun w => set_mcu_probe (set_homeing h (mcu_probe w)) w).

(** [BD_Sensor_Read(fore_r)], lines 901-922. *)
Definition BD_Sensor_Read (fore_r : Z) : M Q :=
  when (0 <? fore_r) (I2C_BD_send "1018") ;;
  intr <- I2C_BD_receive "32" ;;
  intr <- (if 1024 <=? intr then I2C_BD_receive "32" else ret intr) ;;
  store_bd_value (calibrated intr) ;;
  v <- gets (fun w => bd_value (mcu_probe w)) ;;
  (if fore_r =? 0 then
     if Qle_bool 10.24 v then
       respond_info (Msg_data_error v) ;;
       raise command_error (Msg_data_error v)
     else if negb (Qle_bool v 3.8) then
       respond_info (Msg_out_of_range v) ;;
       raise command_error (Msg_out_of_range v)
     else ret tt
   else if fore_r =? 2 then
     if Qle_bool 10.24 v then
       respond_info (Msg_data_error v) ;;
       raise command_error (Msg_data_error v)
     else ret tt
   else ret tt) ;;
  gets (fun w => bd_value (mcu_probe w)).

(** [raise_probe] and [lower_probe] print and return at once: the
    activate/deactivate scripts below the [return] are dead code. *)
Definition raise_probe : M unit := ret tt.
Definition lower_probe : M unit := ret tt.

(** [query_endstop(print_time)], lines 1135-1145: [1] is triggered, [0] open. *)
Definition query_endstop : M Z :=
  v <- BD_Sensor_Read 2 ;;
  store_bd_value v ;;
  b <- gets (fun w => mcu_probe w) ;;
  (* params = 1, and 0 when self.bd_value > self.position_endstop *)
  ret (if negb (Qle_bool (bd_value b) (position_endstop b)) then 0 else 1).

(** [home_start]: the part that touches the wrapper's own state; the
    endstop hand-over to the MCU is Klipper's. *)
Definition home_start : M unit := store_homeing 1.

(** [wait_for_trigger(eventtime)], lines 1160-1170. *)
Definition wait_for_trigger : M unit :=
  _ <- BD_Sensor_Read 2 ;;
  Z_Move_Live "k 5" ;;
  m <- gets (fun w => multi (mcu_probe w)) ;;
  match m with OFF => raise_probe | _ => ret tt end.

(** [multi_probe_begin], lines 1171-1176. *)
Definition multi_probe_begin : M unit :=
  stow <- gets (fun w => stow_on_each_sample (mcu_probe w)) ;;
  if stow then ret tt else store_multi FIRST.

(** [multi_probe_end], lines 1178-1196. *)
Definition multi_probe_end : M unit :=
  I2C_BD_send "1018" ;;
  h <- gets (fun w => homeing (mcu_probe w)) ;;
  (if h =? 1 then
     v <- BD_Sensor_Read 0 ;;
     store_bd_value v ;;
     wait_moves ;;
     sleep 0.004 ;;
     emit (Ev_run_script (Msg_G92 v)) ;;
     respond_info (Msg_triggered_at v)
   else ret tt) ;;
  store_homeing 0 ;;
  stow <- gets (fun w => stow_on_each_sample (mcu_probe w)) ;;
  if stow then ret tt
  else raise_probe ;; store_multi OFF.

(** [probe_prepare(hmove)], lines 1197-1202. *)
Definition probe_prepare : M unit :=
  m <- gets (fun w => multi (mcu_probe w)) ;;
  match m with
  | OFF => lower_probe
  | FIRST => lower_probe ;; store_multi ON
  | ON => ret tt
  end.

(** [probe_finish(hmove)], lines 1203-1211. *)
Definition probe_finish : M unit :=
  I2C_BD_send "1018" ;;
  m <- gets (fun w => multi (mcu_probe w)) ;;
  match m with OFF => raise_probe | _ => ret tt end ;;
  Z_Move_Live "k 100".

(** The raw-value dump of [process_M102], selector [-5], lines 970-992.
    [todo] counts the iterations still allowed; the loop itself stops at
    [ncount1 >= 40]. *)
Fixpoint raw_dump_loop (todo : nat) (ncount1 : Z) : M unit :=
  match todo with
  | O => unfinished
  | S todo' =>
    intd <- I2C_BD_receive "3" ;;
    respond_raw (Msg_int intd) ;;
    if (ncount1 <=? 3) && (550 <? intd) then
      if 1015 <=? intd then
        respond_raw (Text "BDSensor mounted too close or too high!  0.4mm to 2.4mm from BED at zero position is recommended") ;;
        (* the message has no conversion for [% intd]: the [%] operator
           raises before [command_error] is built *)
        raise TypeError (Text "not all arguments converted during string formatting")
      else
        respond_raw (Text "BDSensor mounted too high!  0.4mm to 2.4mm from BED at zero position is recommended")
    else if intd <? 45 then
      respond_raw (Text "BDSensor mounted too close! please mount the BDsensor 0.2~0.4mm higher")
    else
      dwell 0.1 ;;
      let ncount1 := ncount1 + 1 in
      if 40 <=? ncount1 then ret tt
      else raw_dump_loop todo' ncount1
  end.

(** The version read of [process_M102], selector [-1], lines 993-1013. *)
Fixpoint version_loop (todo : nat) (ncount1 : Z) (x : list Z) : M unit :=
  match todo with
  | O => unfinished
  | S todo' =>
    intd <- I2C_BD_receive "3" ;;
    let intd := if 127 <? intd then 127 else intd in
    let intd := if intd <? 32 then 32 else intd in
    let x := x ++ [intd] in
    dwell 0.1 ;;
    let ncount1 := ncount1 + 1 in
    if 20 <=? ncount1 then
      I2C_BD_send "1018" ;;
      respond_raw (Msg_chars x)
    else version_loop todo' ncount1 x
  end.

(** [process_M102(gcmd)], lines 923-1108, on the value of
    [gcmd.get_int('S', None)].  Selectors [-6] (calibration sweep) and [-7]
    (stepper hand-over), which drive the steppers, are not embedded. *)
Definition process_M102 (CMD_BD : option Z) : M unit :=
  match CMD_BD with
  | None => ret tt
  | Some s =>
    if (s =? -6) || (s =? -7) then unfinished
    else if s =? -5 then
      I2C_BD_send "1017" ;;
      I2C_BD_send "1017" ;;
      raw_dump_loop 40 0 ;;
      I2C_BD_send "1018" ;;
      I2C_BD_send "1018"
    else if s =? -1 then
      I2C_BD_send "1016" ;;
      I2C_BD_send "1016" ;;
      version_loop 20 0 [] ;;
      I2C_BD_send "1018" ;;
      I2C_BD_send "1018"
    else if s =? -2 then
      v <- BD_Sensor_Read 1 ;;
      store_bd_value v ;;
      let strd := Msg_mm v in
      let strd := if Qeq_bool v 10.24 then Text "BDsensor:Connection Error"
                  else if Qle_bool 3.9 v then Text "BDsensor:Out of measure Range"
                  else strd in
      respond_raw strd ;;
      I2C_BD_send "1018" ;;
      I2C_BD_send "1018"
    else if s =? -8 then
      I2C_BD_send "1022" ;;
      I2C_BD_send "1018" ;;
      I2C_BD_send "1018"
    else ret tt
  end.

End BDsensorEndstopWrapper.

(** ** class PrinterProbe *)

Module PrinterProbe.

Definition nl : string := String (Ascii.ascii_of_nat 10) EmptyString.

Definition HINT_TIMEOUT : string :=
  nl ++ "If the probe did not move far enough to trigger, then" ++ nl
     ++ "consider reducing the Z axis minimum position so the probe" ++ nl
     ++ "can travel further (the Z minimum position can be negative)." ++ nl.

Definition store_pending (b : bool) : M unit :=
  modify (fun w => set_probe (set_multi_probe_pending b (probe w)) w).

(** [multi_probe_begin], lines 101-103. *)
Definition multi_probe_begin : M unit :=
  BDsensorEndstopWrapper.multi_probe_begin ;;
  store_pending true.

(** [multi_probe_end], lines 104-107. *)
Definition multi_probe_end : M unit :=
  pending <- gets (fun w => multi_probe_pending (probe w)) ;;
  if pending then
    store_pending false ;;
    BDsensorEndstopWrapper.multi_probe_end
  else ret tt.

(** [_handle_command_error], lines 96-100: the bare [except] logs and goes on. *)
Definition _handle_command_error : M unit :=
  try_except multi_probe_end (fun _ => true) (fun _ => ret tt).

(** [phoming.probing_move(self.mcu_probe, pos, speed)]: the homing module
    moves the toolhead and answers with the position reached, where it
    leaves the toolhead, or with a [command_error].  The handlers it runs
    around the move ([probe_prepare], [home_start], [wait_for_trigger],
    [probe_finish]) are operations of the wrapper above. *)
Definition probing_move_call (target : pos3) (v : Q) : M pos3 :=
  emit (Ev_probing_move target v) ;;
  k <- gets probes ;;
  modify (fun w => set_probes (S k) w) ;;
  r <- gets (fun w => probing_move (env w) k) ;;
  match r with
  | inl epos =>
      modify (fun w => set_toolhead (set_position epos (toolhead w)) w) ;;
      ret epos
  | inr reason => raise command_error reason
  end.

(** [str(e)] with the timeout hint appended when the reason mentions the
    homing timeout. *)
Definition with_hint (reason : message) : message :=
  match reason with
  | Text s =>
      match index 0 "Timeout during endstop homing" s with
      | Some _ => Text (s ++ HINT_TIMEOUT)
      | None => Text s
      end
  | m => m
  end.

(** [_probe(speed)], lines 120-137. *)
Definition _probe (v : Q) : M pos3 :=
  homed <- gets (fun w => z_homed (toolhead w)) ;;
  if negb homed then raise command_error (Text "Must home before probe")
  else
    pos <- get_position ;;
    zmin <- gets (fun w => z_position (probe w)) ;;
    let pos := mk_pos (px pos) (py pos) zmin in
    epos <- try_except (probing_move_call pos v)
              (fun e => exn_kind_eqb (kind e) command_error)
              (fun e => raise command_error (with_hint (str e))) ;;
    respond_info (Msg_probe_at (px epos) (py epos) (pz epos)) ;;
    ret epos.

(** [_move(coord, speed)]. *)
Definition _move (x y z : option Q) (v : Q) : M unit := manual_move x y z v.

(** [_calc_mean(positions)], lines 140-143. *)
Definition _calc_mean (positions : list pos3) : M pos3 :=
  match positions with
  | [] => raise ZeroDivisionError (Text "float division by zero")
  | _ =>
      let count := inject_Z (Z.of_nat (List.length positions)) in
      ret (mk_pos (py_sum (map px positions) / count)
                  (py_sum (map py positions) / count)
                  (py_sum (map pz positions) / count))
  end.

(** [_calc_median(positions)], lines 144-151. *)
Definition _calc_median (positions : list pos3) : M pos3 :=
  let z_sorted := sorted_by_z positions in
  let middle := Z.of_nat (List.length positions) / 2 in
  if Z.land (Z.of_nat (List.length positions)) 1 =? 1 then
    py_index z_sorted (Z.to_nat middle)
  else
    _calc_mean (py_slice (middle - 1) (middle + 1) z_sorted).

(** The locals of [run_probe] that its loop rewrites. *)
Record frame : Type := { positions : list pos3; retries : nat }.

(** How a block of the loop body is left: by [continue], by running off its
    end, or by an exception raised while the locals were as returned. *)
Inductive flow : Type := Continue | FallThrough | Raised (e : exn).

(** Runs [m] and hands a raised exception back as a value. *)
Definition reify {A} (m : M A) : M (exn + A) :=
  fun w => match m w with
           | (w', Return a) => (w', Return (inr a))
           | (w', Raise e) => (w', Return (inl e))
           | (w', Unfinished) => (w', Unfinished)
           end.

(** "Check samples tolerance", lines 188-194 and again 202-208. *)
Definition check_tolerance (g : gcmd) (fr : frame) : M (frame * flow) :=
  match map pz (positions fr) with
  | [] => ret (fr, Raised (Exn ValueError (Text "max() arg is an empty sequence")))
  | z :: zs =>
      if negb (Qle_bool (py_max z zs - py_min z zs) (SAMPLES_TOLERANCE g)) then
        if (SAMPLES_TOLERANCE_RETRIES g <=? retries fr)%nat then
          ret (fr, Raised (Exn command_error
                             (Text "Probe samples exceed samples_tolerance")))
        else
          respond_info (Text "Probe samples exceed tolerance. Retrying...") ;;
          ret ({| positions := []; retries := S (retries fr) |}, Continue)
      else ret (fr, Continue)
  end.

Definition direct_read_command (g : gcmd) : bool :=
  String.eqb (get_command g) "BED_MESH_CALIBRATE"
  || String.eqb (get_command g) "QUAD_GANTRY_LEVEL".

(** The [try] block of the loop body, lines 173-195.  [self.mcu_probe.bd_sensor]
    is set by the wrapper's constructor and never [None].  [positions.append]
    changes the list in place, so an exception raised after it is handled
    with the longer list. *)
Definition direct_read (g : gcmd) (fr : frame) : M (frame * flow) :=
  if direct_read_command g then
    r <- reify (wait_moves ;;
                sleep 0.004 ;;
                pos <- get_position ;;
                intd <- BDsensorEndstopWrapper.BD_Sensor_Read 0 ;;
                let pos := mk_pos (px pos) (py pos) (pz pos - intd) in
                respond_info (Msg_probe_at (px pos) (py pos) (pz pos)) ;;
                ret pos) ;;
    match r with
    | inl e => ret (fr, Raised e)
    | inr pos =>
        check_tolerance g {| positions := positions fr ++ [pos];
                             retries := retries fr |}
    end
  else ret (fr, FallThrough).

(** The mechanical probe that follows the [try] block, lines 199-211; it
    hands back the locals as the pass leaves them. *)
Definition mechanical_probe (g : gcmd) (probexy : Q * Q) (fr : frame) : M frame :=
  pos <- _probe (PROBE_SPEED g) ;;
  r <- check_tolerance g {| positions := positions fr ++ [pos];
                            retries := retries fr |} ;;
  let '(fr, fl) := r in
  match fl with
  | Raised e => fun w => (w, Raise e)
  | _ =>
    (if (List.length (positions fr) <? SAMPLES g)%nat then
       _move (Some (fst probexy)) (Some (snd probexy))
             (Some (pz pos + SAMPLE_RETRACT_DIST g)%Q) (LIFT_SPEED g)
     else ret tt) ;;
    ret fr
  end.

(** The [while len(positions) < sample_count] loop, lines 171-211. *)
Fixpoint sample_loop (fuel : nat) (g : gcmd) (probexy : Q * Q) (fr : frame)
    : M (list pos3) :=
  if (List.length (positions fr) <? SAMPLES g)%nat then
    match fuel with
    | O => unfinished
    | S fuel' =>
      r <- direct_read g fr ;;
      let '(fr, fl) := r in
      match fl with
      | Continue => sample_loop fuel' g probexy fr
      | _ =>
        (* except Exception as e *)
        match fl with Raised e => respond_info (str e) | _ => ret tt end ;;
        fr <- mechanical_probe g probexy fr ;;
        sample_loop fuel' g probexy fr
      end
    end
  else ret (positions fr).

(** Iterations that [sample_loop] can need: every pass either lengthens
    [positions] or spends a retry. *)
Definition sample_budget (g : gcmd) : nat :=
  (S (SAMPLES_TOLERANCE_RETRIES g) * SAMPLES g)%nat.

(** The sample set [run_probe] aggregates, lines 163-213. *)
Definition collect_samples (g : gcmd) : M (list pos3) :=
  pending <- gets (fun w => multi_probe_pending (probe w)) ;;
  let must_notify_multi_probe := negb pending in
  when must_notify_multi_probe multi_probe_begin ;;
  p <- get_position ;;
  let probexy := (px p, py p) in
  positions <- sample_loop (sample_budget g) g probexy
                 {| positions := []; retries := 0 |} ;;
  when must_notify_multi_probe multi_probe_end ;;
  ret positions.

(** [run_probe(gcmd)], lines 152-217. *)
Definition run_probe (g : gcmd) : M pos3 :=
  positions <- collect_samples g ;;
  if String.eqb (SAMPLES_RESULT g) "median" then _calc_median positions
  else _calc_mean positions.

Definition get_lift_speed (g : gcmd) : Q := LIFT_SPEED g.

Definition get_offsets : M pos3 :=
  gets (fun w => mk_pos (x_offset (probe w)) (y_offset (probe w))
                        (z_offset (probe w))).

End PrinterProbe.

(** ** class ProbePointsHelper *)

Module ProbePointsHelper.

Definition store_results (r : list pos3) : M unit :=
  modify (fun w => set_helper (set_results r (helper w)) w).

(** [self.finalize_callback(self.probe_offsets, self.results)]; [true] is
    the answer ["retry"]. *)
Definition finalize : M bool :=
  rs <- gets (fun w => results (helper w)) ;;
  emit (Ev_finalize rs) ;;
  gets (fun w => finalize_callback (env w) rs).

(** The lift at the head of [_move_next] and of [fast_probe]. *)
Definition lift_toolhead : M unit :=
  h <- gets helper ;;
  let v := match results h with [] => speed h | _ => lift_speed h end in
  manual_move None None (Some (horizontal_move_z h)) v.

(** A probe point with the probe offsets taken off when [use_offsets] is set. *)
Definition offset_point (h : points_helper) (p : Q * Q) : Q * Q :=
  if use_offsets h
  then ((fst p - px (probe_offsets h))%Q, (snd p - py (probe_offsets h))%Q)
  else p.

(** [_move_next()], lines 351-372: [true] when the batch is done. *)
Definition _move_next : M bool :=
  lift_toolhead ;;
  h <- gets helper ;;
  done <- (if (List.length (probe_points h) <=? List.length (results h))%nat then
             res <- finalize ;;
             if negb res then ret true
             else store_results [] ;; ret false
           else ret false) ;;
  if done then ret true
  else
    h <- gets helper ;;
    nextpos <- py_index (probe_points h) (List.length (results h)) ;;
    let nextpos := offset_point h nextpos in
    manual_move (Some (fst nextpos)) (Some (snd nextpos)) None (speed h) ;;
    ret false.

(** The threshold test of the scan loop, line 415:
    [(est_time-start_time) >= x_index*line_time/(n_count-1)]. *)
Definition sample_due (est_time start_time line_time : Q) (x_index n_count : nat)
    : bool :=
  Qle_bool (inject_Z (Z.of_nat x_index) * line_time
              / inject_Z (Z.of_nat n_count - 1))
           (est_time - start_time).

(** The [while] loop of [fast_probe_oneline], lines 409-430; it hands back
    [x_index] as the loop leaves it. *)
Fixpoint scan_loop (fuel : nat) (oneline_points : list (Q * Q))
    (start_time line_time est_time : Q) (x_index : nat) : M nat :=
  match fuel with
  | O => unfinished
  | S fuel' =>
    o <- observe ;;
    if negb (special_queuing_state o) || Qle_bool est_time (print_time o) then
      if negb (can_pause o) then ret x_index
      else
        let est_time := estimated_print_time o in
        x_index <-
          (if sample_due est_time start_time line_time x_index
                (List.length oneline_points) then
             pos <- get_position ;;
             pt <- py_index oneline_points x_index ;;
             intd <- BDsensorEndstopWrapper.BD_Sensor_Read 0 ;;
             let pos := mk_pos (fst pt) (snd pt) (pz pos - intd) in
             respond_info (Msg_probe_at (px pos) (py pos) (pz pos)) ;;
             rs <- gets (fun w => results (helper w)) ;;
             store_results (rs ++ [pos]) ;;
             ret (S x_index)
           else ret x_index) ;;
        pause ;;
        scan_loop fuel' oneline_points start_time line_time est_time x_index
    else ret x_index
  end.

(** The points of the line that starts at [start_point], lines 381-383.
    The source compares the y coordinates with [is]; the mesh generator
    shares one float object among the points of a row, which is embedded as
    equality of the coordinates. *)
Definition points_on_line (start_point : Q * Q) (points : list (Q * Q))
    : list (Q * Q) :=
  filter (fun point => Qeq_bool (snd start_point) (snd point)) points.

(** [fast_probe_oneline(gcmd)], lines 374-430. *)
Definition fast_probe_oneline (fuel : nat) : M unit :=
  h <- gets helper ;;
  start_point <- py_index (probe_points h) (List.length (results h)) ;;
  let oneline_points := points_on_line start_point (probe_points h) in
  let n_count := List.length oneline_points in
  if (n_count <=? 1)%nat then raise config_error (Msg_points_on_x n_count)
  else
    end_point <- py_index oneline_points (n_count - 1) ;;
    let start_point := offset_point h start_point in
    let end_point := offset_point h end_point in
    manual_move (Some (fst start_point)) (Some (snd start_point)) None (speed h) ;;
    wait_moves ;;
    manual_move (Some (fst end_point)) (Some (snd end_point)) None (speed h) ;;
    o <- observe ;;
    let est_time := estimated_print_time o in
    let line_time := (print_time o - est_time)%Q in
    let start_time := est_time in
    _ <- scan_loop fuel oneline_points start_time line_time est_time 0 ;;
    ret tt.

(** The [while len(self.results) < len(self.probe_points)] loop of
    [fast_probe], lines 441-442. *)
Fixpoint scan_lines (lines fuel : nat) : M unit :=
  h <- gets helper ;;
  if (List.length (results h) <? List.length (probe_points h))%nat then
    match lines with
    | O => unfinished
    | S lines' => fast_probe_oneline fuel ;; scan_lines lines' fuel
    end
  else ret tt.

(** [fast_probe(gcmd)], lines 432-447: [Some true] for [return True],
    [None] for running off the end. *)
Definition fast_probe (fuel : nat) : M (option bool) :=
  lift_toolhead ;;
  store_results [] ;;
  scan_lines fuel fuel ;;
  res <- finalize ;;
  store_results [] ;;
  if negb res then ret (Some true) else ret None.

(** The [while 1] loop of [start_probe], lines 480-485. *)
Fixpoint probe_each_point (fuel : nat) (g : gcmd) : M unit :=
  match fuel with
  | O => unfinished
  | S fuel' =>
    done <- _move_next ;;
    if done then ret tt
    else
      pos <- PrinterProbe.run_probe g ;;
      rs <- gets (fun w => results (helper w)) ;;
      store_results (rs ++ [pos]) ;;
      probe_each_point fuel' g
  end.

(** The continuous-scan attempt of [start_probe], lines 472-479: [true]
    when the method returned from inside the [try]. *)
Definition try_fast_probe (fuel : nat) (g : gcmd) : M bool :=
  if String.eqb (get_command g) "BED_MESH_CALIBRATE" then
    try_except
      (cap <- gets (fun w => no_stop_probe (mcu_probe w)) ;;
       match cap with
       | Some _ =>
           _ <- fast_probe fuel ;;
           PrinterProbe.multi_probe_end ;;
           ret true
       | None => ret false
       end)
      (fun e => exn_kind_eqb (kind e) AttributeError)
      (fun _ => ret false)
  else ret false.

(** The set-up of automatic probing in [start_probe], lines 465-470. *)
Definition automatic_setup (g : gcmd) : M unit :=
  modify (fun w => set_helper (set_lift_speed (PrinterProbe.get_lift_speed g) (helper w)) w) ;;
  offsets <- PrinterProbe.get_offsets ;;
  modify (fun w => set_helper (set_probe_offsets offsets (helper w)) w) ;;
  h <- gets helper ;;
  if negb (Qle_bool (pz (probe_offsets h)) (horizontal_move_z h)) then
    raise command_error (Text "horizontal_move_z can't be less than probe's z_offset")
  else PrinterProbe.multi_probe_begin.

(** [start_probe(gcmd)], lines 449-486, for the automatic method; the
    interactive manual probe is handed to Klipper's [ManualProbeHelper] and
    is not followed. *)
Definition start_probe (fuel : nat) (g : gcmd) : M unit :=
  store_results [] ;;
  modify (fun w => set_helper (set_horizontal_move_z (HORIZONTAL_MOVE_Z g) (helper w)) w) ;;
  if negb (String.eqb (METHOD g) "automatic") then
    modify (fun w => set_helper (set_lift_speed (speed (helper w)) (helper w)) w) ;;
    modify (fun w => set_helper (set_probe_offsets (mk_pos 0 0 0) (helper w)) w) ;;
    unfinished
  else
    automatic_setup g ;;
    returned <- try_fast_probe fuel g ;;
    if returned then ret tt
    else
      probe_each_point fuel g ;;
      PrinterProbe.multi_probe_end.

End ProbePointsHelper.

(** * Vocabulary of the properties *)

Import BDsensorEndstopWrapper.

(** The raw code a read starting in world [w] accepts: the first answer,
    or the second one when the first is [>= 1024]. *)
Definition accepted_code (w : world) : Z :=
  let first := sensor (env w) (queries w) in
  if 1024 <=? first then sensor (env w) (S (queries w)) else first.

(** Round trips such a read makes. *)
Definition round_trips (w : world) : nat :=
  if 1024 <=? sensor (env w) (queries w) then 2%nat else 1%nat.

(** How a read in mode [fore_r] ends once it has accepted the raw code [a]. *)
Definition read_result (fore_r a : Z) : result Q :=
  if fore_r =? 0 then
    if 1024 <=? a then Raise (Exn command_error (Msg_data_error (calibrated a)))
    else if 380 <? a then Raise (Exn command_error (Msg_out_of_range (calibrated a)))
    else Return (calibrated a)
  else if fore_r =? 2 then
    if 1024 <=? a then Raise (Exn command_error (Msg_data_error (calibrated a)))
    else Return (calibrated a)
  else Return (calibrated a).

(** The events of such a read, newest first. *)
Definition read_events (fore_r : Z) (w : world) : list event :=
  let first := sensor (env w) (queries w) in
  match read_result fore_r (accepted_code w) with
  | Raise e => [Ev_respond_info (str e)]
  | _ => []
  end
  ++ (if 1024 <=? first
      then [Ev_I2C_BD_receive "32" (sensor (env w) (S (queries w)))] else [])
  ++ [Ev_I2C_BD_receive "32" first]
  ++ (if 0 <? fore_r then [Ev_I2C_BD_send "1018"] else []).

(** The world such a read leaves. *)
Definition read_world (fore_r : Z) (w : world) : world :=
  set_trace (read_events fore_r w ++ trace w)
    (set_mcu_probe (set_bd_value (calibrated (accepted_code w)) (mcu_probe w))
       (set_queries (queries w + round_trips w) w)).

(** The text the M102 S-2 report shows for an accepted raw code. *)
Definition distance_report (a : Z) : message :=
  if a =? 1024 then Text "BDsensor:Connection Error"
  else if 390 <=? a then Text "BDsensor:Out of measure Range"
  else Msg_mm (calibrated a).

(** The endstop states as [query_endstop] encodes them. *)
Definition Triggered : Z := 1.
Definition Open : Z := 0.

(** *** A printer on the bench

    A world as the constructors leave it (no session, [bd_value] at its
    [10.24] start value), with the sensor answering from a list of raw
    codes. *)

Definition sensor_of (codes : list Z) : nat -> Z := fun k => nth k codes 0.

Definition idle_obs : toolhead_obs :=
  {| estimated_print_time := 0; print_time := 0;
     special_queuing_state := true; can_pause := false; fault := None |}.

Definition bench_env (codes : list Z) : environment :=
  {| sensor := sensor_of codes;
     probing_move := fun _ => inr (Text "Timeout during endstop homing");
     timeline := fun _ => idle_obs;
     finalize_callback := fun _ => false |}.

Definition bench_wrapper (threshold : Q) : bd_wrapper :=
  {| position_endstop := threshold; stow_on_each_sample := true;
     no_stop_probe := None; multi := OFF; homeing := 0; bd_value := 10.24 |}.

Definition bench_helper : points_helper :=
  {| probe_points := []; results := []; speed := 50; lift_speed := 50;
     horizontal_move_z := 5; default_horizontal_move_z := 5;
     use_offsets := false; probe_offsets := mk_pos 0 0 0 |}.

Definition bench (codes : list Z) (threshold : Q) : world :=
  {| env := bench_env codes; queries := 0; probes := 0; tick := 0;
     toolhead := {| position := mk_pos 0 0 5; z_homed := true |};
     mcu_probe := bench_wrapper threshold;
     probe := {| multi_probe_pending := false; z_position := 0;
                 x_offset := 0; y_offset := 0; z_offset := 0 |};
     helper := bench_helper;
     trace := [] |}.

(** How many times the axis correction ([G92 Z...]) was applied in a trace. *)
Definition corrections (t : list event) : nat :=
  List.length (filter (fun e => match e with Ev_run_script _ => true | _ => false end) t).

(** A bench printer whose wrapper keeps the probe deployed over a batch
    ([deactivate_on_each_sample: False]). *)
Definition batching (w : world) : world :=
  set_mcu_probe
    (let '(Build_bd_wrapper pe _ ns m h v) := mcu_probe w in
     Build_bd_wrapper pe false ns m h v) w.

(** *** The session state machine

    The operations of the endstop wrapper that Klipper or the probing code
    invoke between two reads of [self.multi]. *)
Inductive wrapper_op : Type :=
| Op_multi_probe_begin
| Op_multi_probe_end
| Op_probe_prepare
| Op_probe_finish
| Op_query_endstop
| Op_home_start
| Op_wait_for_trigger
| Op_BD_Sensor_Read (fore_r : Z)
| Op_process_M102 (CMD_BD : option Z).

Definition run_op (o : wrapper_op) : M unit :=
  match o with
  | Op_multi_probe_begin => multi_probe_begin
  | Op_multi_probe_end => multi_probe_end
  | Op_probe_prepare => probe_prepare
  | Op_probe_finish => probe_finish
  | Op_query_endstop => _ <- query_endstop ;; ret tt
  | Op_home_start => home_start
  | Op_wait_for_trigger => wait_for_trigger
  | Op_BD_Sensor_Read fore_r => _ <- BD_Sensor_Read fore_r ;; ret tt
  | Op_process_M102 s => process_M102 s
  end.

(** The transitions in the strict order Off, First, On, Off: an operation
    leaves the state alone, or [begin] takes Off to First, or
    [probe_prepare] takes First to On, or [end] goes back to Off. *)
Definition ordered_transition (o : wrapper_op) (stow : bool)
    (m m' : multi_state) : Prop :=
  m' = m
  \/ (o = Op_multi_probe_begin /\ stow = false /\ m = OFF /\ m' = FIRST)
  \/ (o = Op_probe_prepare /\ m = FIRST /\ m' = ON)
  \/ (o = Op_multi_probe_end /\ stow = false /\ m' = OFF).

(** The transitions the code makes: [begin] sets First whatever the state. *)
Definition session_transition (o : wrapper_op) (stow : bool)
    (m m' : multi_state) : Prop :=
  m' = m
  \/ (o = Op_multi_probe_begin /\ stow = false /\ m' = FIRST)
  \/ (o = Op_probe_prepare /\ m = FIRST /\ m' = ON)
  \/ (o = Op_multi_probe_end /\ stow = false /\ m' = OFF).

(** A computation that leaves the session state and the stow option alone. *)
Definition keeps_session {A} (c : M A) : Prop :=
  forall w,
    multi (mcu_probe (fst (c w))) = multi (mcu_probe w)
    /\ stow_on_each_sample (mcu_probe (fst (c w))) = stow_on_each_sample (mcu_probe w).

(** *** Mount-height checks of the raw-value dump *)

Inductive mount_verdict : Type :=
| Too_close_or_too_high     (* reported, then an exception *)
| Too_high                  (* reported, dump ends *)
| Too_close                 (* reported, dump ends *)
| Plausible.                (* nothing reported, dump goes on *)

(** What the dump decides for the raw value [raw] read after [ncount1]
    earlier samples. *)
Definition dump_verdict (ncount1 raw : Z) : mount_verdict :=
  if (ncount1 <=? 3) && (550 <? raw) then
    if 1015 <=? raw then Too_close_or_too_high else Too_high
  else if raw <? 45 then Too_close
  else Plausible.

(** The thresholds in the words of the specification: strictly above 1015,
    in (550, 1015] once at least three samples were taken, below 45. *)
Definition worded_verdict (ncount1 raw : Z) : mount_verdict :=
  if 1015 <? raw then Too_close_or_too_high
  else if (550 <? raw) && (3 <=? ncount1) then Too_high
  else if raw <? 45 then Too_close
  else Plausible.

Definition text_too_close_or_too_high : message :=
  Text "BDSensor mounted too close or too high!  0.4mm to 2.4mm from BED at zero position is recommended".
Definition text_too_high : message :=
  Text "BDSensor mounted too high!  0.4mm to 2.4mm from BED at zero position is recommended".
Definition text_too_close : message :=
  Text "BDSensor mounted too close! please mount the BDsensor 0.2~0.4mm higher".

(** The world once a raw value was read and echoed. *)
Definition sampled (w : world) : world :=
  let raw := sensor (env w) (queries w) in
  set_trace (Ev_respond_raw (Msg_int raw) :: Ev_I2C_BD_receive "3" raw :: trace w)
    (set_queries (S (queries w)) w).

(** The texts a trace reports about the mounting height. *)
Definition reported (t : list event) (m : message) : Prop :=
  In (Ev_respond_raw m) t.

(** *** Aggregation *)

(** The sum and the arithmetic average of a list of numbers. *)
Definition Qsum (l : list Q) : Q := fold_right Qplus 0%Q l.
Definition average (l : list Q) : Q :=
  (Qsum l / inject_Z (Z.of_nat (List.length l)))%Q.

(** Ascending in z. *)
Definition ascending_z (l : list pos3) : Prop :=
  StronglySorted (fun a b => (pz a <= pz b)%Q) l.


(** *** Sample acquisition *)

(** The test "max(z) - min(z) > samples_tolerance" on a sample set. *)
Definition exceeds (tol : Q) (ps : list pos3) : bool :=
  match map pz ps with
  | [] => false
  | z :: zs => negb (Qle_bool (py_max z zs - py_min z zs) tol)
  end.

(** No two samples of the set are further apart in z than the tolerance. *)
Definition within_tolerance (tol : Q) (ps : list pos3) : Prop :=
  forall a b, In a ps -> In b ps -> (pz a - pz b <= tol)%Q.

Definition tolerance_error : exn :=
  Exn command_error (Text "Probe samples exceed samples_tolerance").

(** Passes of the sampling loop a frame may still need. *)
Definition passes_left (g : gcmd) (fr : PrinterProbe.frame) : nat :=
  ((SAMPLES_TOLERANCE_RETRIES g - PrinterProbe.retries fr) * SAMPLES g
   + (SAMPLES g - List.length (PrinterProbe.positions fr)))%nat.

(** A two-sample probe with the configured defaults (tolerance 0.1 mm, no
    retry), issued by the command [cmd]. *)
Definition two_samples (cmd : string) : gcmd :=
  {| get_command := cmd; METHOD := "automatic";
     PROBE_SPEED := 5; LIFT_SPEED := 5;
     SAMPLES := 2; SAMPLE_RETRACT_DIST := 2;
     SAMPLES_TOLERANCE := 0.1; SAMPLES_TOLERANCE_RETRIES := 0;
     SAMPLES_RESULT := "average"; HORIZONTAL_MOVE_Z := 5 |}.

(** The bench printer with a homing module whose probing moves end at the
    given heights (and time out once the list is used up). *)
Definition probing_at (heights : list Q) (w : world) : world :=
  let '(Build_world e q p k th b pr h t) := w in
  Build_world
    {| sensor := sensor e;
       probing_move := fun k =>
         match nth_error heights k with
         | Some z => inl (mk_pos 0 0 z)
         | None => inr (Text "Timeout during endstop homing")
         end;
       timeline := timeline e;
       finalize_callback := finalize_callback e |}
    q p k th b pr h t.

(** *** Continuous scan *)



(** The world after the reading for the point [pt] was taken and recorded. *)
Definition recorded (pt : Q * Q) (w : world) : world :=
  let w1 := read_world 0 w in
  let pos := mk_pos (fst pt) (snd pt)
               (pz (position (toolhead w1)) - calibrated (accepted_code w)) in
  set_helper (set_results (results (helper w1) ++ [pos]) (helper w1))
    (set_trace (Ev_respond_info (Msg_probe_at (px pos) (py pos) (pz pos))
                :: trace w1) w1).

(** The world once the toolhead has been sent to the start of the line,
    has settled there, and has been sent on to its end. *)
Definition lined_up (a b : Q * Q) (w : world) : world :=
  fst ((manual_move (Some (fst a)) (Some (snd a)) None (speed (helper w)) ;;
        wait_moves ;;
        manual_move (Some (fst b)) (Some (snd b)) None (speed (helper w))) w).

(** A line of five mesh points, 10 mm apart, scanned by a move that spans
    2.0 s, with the clock polled at 0 s and 1.2 s while the move runs and at
    2.3 s once it has ended and the queue is flushed. *)
Definition five_points : list (Q * Q) :=
  [(0, 0); (10, 0); (20, 0); (30, 0); (40, 0)]%Q.

Definition coarse_clock (j : nat) : toolhead_obs :=
  {| estimated_print_time := match j with
                             | O => 0 | 1%nat => 1.2 | 2%nat => 2.3 | _ => 2.4
                             end;
     print_time := 2;
     special_queuing_state := match j with O | 1%nat => false | _ => true end;
     can_pause := true;
     fault := None |}.

(** The bench printer set up for that scan: the sensor reads 1.00 mm
    throughout, every mechanical probe ends at z = 1, and [no_stop_probe] is
    configured or not. *)
Definition scan_bench (sensor_code : Z) (no_stop : option string) : world :=
  {| env := {| sensor := fun _ => sensor_code;
               probing_move := fun _ => inl (mk_pos 0 0 1);
               timeline := coarse_clock;
               finalize_callback := fun _ => false |};
     queries := 0; probes := 0; tick := 0;
     toolhead := {| position := mk_pos 0 0 5; z_homed := true |};
     mcu_probe := {| position_endstop := 0; stow_on_each_sample := true;
                     no_stop_probe := no_stop; multi := OFF; homeing := 0;
                     bd_value := 10.24 |};
     probe := {| multi_probe_pending := false; z_position := 0;
                 x_offset := 0; y_offset := 0; z_offset := 0 |};
     helper := {| probe_points := five_points; results := []; speed := 50;
                  lift_speed := 50; horizontal_move_z := 5;
                  default_horizontal_move_z := 5; use_offsets := false;
                  probe_offsets := mk_pos 0 0 0 |};
     trace := [] |}.

(** A BED_MESH_CALIBRATE command with one sample per point. *)
Definition mesh_calibrate : gcmd :=
  {| get_command := "BED_MESH_CALIBRATE"; METHOD := "automatic";
     PROBE_SPEED := 5; LIFT_SPEED := 5;
     SAMPLES := 1; SAMPLE_RETRACT_DIST := 2;
     SAMPLES_TOLERANCE := 0.1; SAMPLES_TOLERANCE_RETRIES := 0;
     SAMPLES_RESULT := "average"; HORIZONTAL_MOVE_Z := 5 |}.

(** The world [start_probe] has prepared when it reaches the choice between
    continuous scanning and per-point probing. *)
Definition prepared (g : gcmd) (w : world) : world * result unit :=
  (ProbePointsHelper.store_results [] ;;
   modify (fun w => set_helper
                      (set_horizontal_move_z (HORIZONTAL_MOVE_Z g) (helper w)) w) ;;
   ProbePointsHelper.automatic_setup g) w.

(** The per-point probing that [start_probe] falls back to. *)
Definition per_point (fuel : nat) (g : gcmd) : M unit :=
  ProbePointsHelper.probe_each_point fuel g ;;
  PrinterProbe.multi_probe_end.


(** * Vocabulary of the further properties *)



(** How many raw values a trace echoes. *)
Definition echoes (t : list event) : nat :=
  List.length
    (filter (fun e => match e with Ev_respond_raw (Msg_int _) => true | _ => false end) t).

(** How many times a trace closes the reading mode (the "1018" command). *)
Definition finishes (t : list event) : nat :=
  List.length
    (filter (fun e => match e with
                      | Ev_I2C_BD_send s => String.eqb s "1018"
                      | _ => false
                      end) t).

(** *** Properties a computation keeps *)

(** A computation that keeps the property [Inv] of the world, however it
    ends. *)
Definition maintains {A} (Inv : world -> Prop) (c : M A) : Prop :=
  forall w, Inv w -> Inv (fst (c w)).

(** Any event but a call of the finalize callback. *)
Definition not_finalize (e : event) : Prop :=
  match e with Ev_finalize _ => False | _ => True end.

(** Between the worlds [w] and [w'] at most [n] probing moves were made. *)
Definition probing_moves (w w' : world) (n : nat) : Prop :=
  (probes w <= probes w' <= probes w + n)%nat.

(** *** Batches handed to the finalize callback *)

(** Every call of the finalize callback that the trace [t] records beyond
    those of [t0] was handed exactly [n] results. *)
Definition complete_batches (n : nat) (t0 t : list event) : Prop :=
  forall rs, In (Ev_finalize rs) t ->
             In (Ev_finalize rs) t0 \/ List.length rs = n.

(** What per-point probing started in [w0] keeps true of the world: the
    points are the same, there are no more results than points, and the
    callback has only seen complete batches. *)
Definition batch_state (w0 w : world) : Prop :=
  env w = env w0
  /\ probe_points (helper w) = probe_points (helper w0)
  /\ (List.length (results (helper w)) <= List.length (probe_points (helper w0)))%nat
  /\ complete_batches (List.length (probe_points (helper w0))) (trace w0) (trace w).

(** How a batch that returned has ended: the last thing it did was to hand
    its results, one per point, to the callback, which did not ask for a
    retry. *)
Definition batch_accepted (w0 w' : world) : Prop :=
  (exists t, trace w' = Ev_finalize (results (helper w')) :: t)
  /\ List.length (results (helper w')) = List.length (probe_points (helper w0))
  /\ finalize_callback (env w0) (results (helper w')) = false.

(** *** Heights of the continuous scan *)

(** A height recorded at the toolhead height [z0] from a reading of at most
    3.8 mm (raw code 380). *)
Definition height_in_range (z0 : Q) (p : pos3) : Prop :=
  exists a : Z, a <= 380 /\ pz p = (z0 - calibrated a)%Q.

(** What the scan started in [w0] at the height [z0] keeps true of the
    world: the toolhead stays at that height, the points are the same, and
    every height recorded comes from a reading in range. *)
Definition scan_state (z0 : Q) (w0 w : world) : Prop :=
  env w = env w0
  /\ pz (position (toolhead w)) = z0
  /\ probe_points (helper w) = probe_points (helper w0)
  /\ Forall (height_in_range z0) (results (helper w)).



(** The same command with another HORIZONTAL_MOVE_Z. *)
Definition with_move_z (z : Q) (g : gcmd) : gcmd :=
  let '(Build_gcmd c m ps ls s r t tr sr _) := g in
  Build_gcmd c m ps ls s r t tr sr z.

(** ** [calc_move_time], lines 500-513

    The function of the module that computes the trapezoid of a manual
    stepper move: the direction, the time spent accelerating (and again
    decelerating), the time spent cruising, and the cruise velocity. *)

Section MoveTime.

(** [math.sqrt] on the arguments it accepts. *)
Variable sqrt : Q -> Q.



End MoveTime.

(** ** [PrinterProbe.cmd_PROBE_ACCURACY], lines 236-276 *)

(** The [while len(positions) < sample_count] loop, lines 253-259: probe,
    then retract to [sample_retract_dist] above the height reached. *)
Fixpoint accuracy_loop (fuel : nat) (g : gcmd) (positions : list pos3)
    : M (list pos3) :=
  if (List.length positions <? SAMPLES g)%nat then
    match fuel with
    | O => unfinished
    | S fuel' =>
      pos <- PrinterProbe._probe (PROBE_SPEED g) ;;
      let positions := positions ++ [pos] in
      PrinterProbe._move None None (Some (pz pos + SAMPLE_RETRACT_DIST g)%Q)
        (LIFT_SPEED g) ;;
      accuracy_loop fuel' g positions
    end
  else ret positions.

(** The command.  Its two responses are formatted from the position, the
    parameters and the statistics; the texts are kept as their formats.  The
    statistics are computed for the exceptions they can raise: [max] of no
    sample is a [ValueError]. *)
Definition cmd_PROBE_ACCURACY (g : gcmd) : M unit :=
  _ <- get_position ;;
  respond_info
    (Text ("PROBE_ACCURACY at X:%.3f Y:%.3f Z:%.3f"
           ++ " (samples=%d retract=%.3f"
           ++ " speed=%.1f lift_speed=%.1f)" ++ PrinterProbe.nl)) ;;
  PrinterProbe.multi_probe_begin ;;
  positions <- accuracy_loop (SAMPLES g) g [] ;;
  PrinterProbe.multi_probe_end ;;
  match map pz positions with
  | [] => raise ValueError (Text "max() arg is an empty sequence")
  | z :: zs =>
      let max_value := py_max z zs in
      let min_value := py_min z zs in
      let range_value := (max_value - min_value)%Q in
      avg_value <- PrinterProbe._calc_mean positions ;;
      median <- PrinterProbe._calc_median positions ;;
      respond_info
        (Text ("probe accuracy results: maximum %.6f, minimum %.6f, range %.6f, "
               ++ "average %.6f, median %.6f, standard deviation %.6f"))
  end.

(** *** Samples in another order *)



(** *** Direct reading *)


(** * Properties *)

(** ** Comparisons on calibrated distances

    On raw codes divided by [100] the tests against the protocol constants
    are tests on the raw code. *)

Lemma calibrated_ge_10_24 a : Qle_bool 10.24 (calibrated a) = (1024 <=? a).
Proof.
  unfold calibrated, Qle_bool, Qdiv, Qmult, Qinv, inject_Z; cbn.
  destruct (Z.leb_spec 1024 a); [apply Z.leb_le | apply Z.leb_gt]; lia.
Qed.

Lemma calibrated_le_3_8 a : Qle_bool (calibrated a) 3.8 = (a <=? 380).
Proof.
  unfold calibrated, Qle_bool, Qdiv, Qmult, Qinv, inject_Z; cbn.
  destruct (Z.leb_spec a 380); [apply Z.leb_le | apply Z.leb_gt]; lia.
Qed.

Lemma calibrated_ge_3_9 a : Qle_bool 3.9 (calibrated a) = (390 <=? a).
Proof.
  unfold calibrated, Qle_bool, Qdiv, Qmult, Qinv, inject_Z; cbn.
  destruct (Z.leb_spec 390 a); [apply Z.leb_le | apply Z.leb_gt]; lia.
Qed.

Lemma calibrated_eq_10_24 a : Qeq_bool (calibrated a) 10.24 = (a =? 1024).
Proof.
  unfold calibrated, Qeq_bool, Qdiv, Qmult, Qinv, inject_Z; cbn.
  destruct (Z.eqb_spec a 1024); [apply Z.eqb_eq | apply Z.eqb_neq]; lia.
Qed.

(** ** Sensor channel *)

Arguments calibrated : simpl never.
Arguments Qle_bool : simpl never.
Arguments Qeq_bool : simpl never.
Arguments Z.leb : simpl never.
Arguments Z.ltb : simpl never.
Arguments Z.eqb : simpl never.

Ltac run_M :=
  unfold bind, ret, gets, modify, when, raise, emit, respond_info, respond_raw,
    I2C_BD_send, I2C_BD_receive, Z_Move_Live, wait_moves, sleep, dwell,
    store_bd_value, store_multi, store_homeing, raise_probe, lower_probe; cbn.

Ltac split_ifs :=
  repeat match goal with
         | |- context [if ?c then _ else _] => destruct c eqn:?; cbn
         end.

(** Opens the world record (and the wrapper inside it) so that field
    updates compute. *)
Ltac open_world w :=
  let e := fresh "wenv" in let q := fresh "wqueries" in
  let p := fresh "wprobes" in let k := fresh "wtick" in
  let th := fresh "wtoolhead" in let b := fresh "wmcu" in
  let pr := fresh "wprobe" in let h := fresh "whelper" in
  let t := fresh "wtrace" in
  let pe := fresh "wthreshold" in let st := fresh "wstow" in
  let ns := fresh "wnostop" in let m := fresh "wmulti" in
  let ho := fresh "whomeing" in let v := fresh "wbd" in
  destruct w as [e q p k th b pr h t]; destruct b as [pe st ns m ho v];
  cbn in *.

(** [BD_Sensor_Read] in full: the world it leaves and how it ends. *)
Lemma BD_Sensor_Read_run (fore_r : Z) (w : world) :
  BD_Sensor_Read fore_r w = (read_world fore_r w, read_result fore_r (accepted_code w)).
Proof.
  unfold BD_Sensor_Read, read_world, read_events, read_result, accepted_code,
    round_trips.
  open_world w. run_M.
  destruct (0 <? fore_r) eqn:Hpos; cbn;
    destruct (1024 <=? sensor _ _) eqn:Hfirst; cbn;
    rewrite ?calibrated_ge_10_24, ?calibrated_le_3_8, ?Z.leb_antisym,
      ?negb_involutive;
    destruct (fore_r =? 0) eqn:H0; cbn;
    try (destruct (fore_r =? 2) eqn:H2; cbn);
    split_ifs;
    rewrite ?Nat.add_succ_r, ?Nat.add_0_r;
    reflexivity.
Qed.

Lemma read_result_finished fore_r a : read_result fore_r a <> Unfinished.
Proof. unfold read_result. split_ifs; discriminate. Qed.

Lemma read_world_queries fore_r w :
  queries (read_world fore_r w) = (queries w + round_trips w)%nat.
Proof. destruct w; reflexivity. Qed.

Lemma read_world_trace fore_r w :
  trace (read_world fore_r w) = read_events fore_r w ++ trace w.
Proof. destruct w; reflexivity. Qed.

Lemma read_world_mcu_probe fore_r w :
  mcu_probe (read_world fore_r w) =
    set_bd_value (calibrated (accepted_code w)) (mcu_probe w).
Proof. destruct w; reflexivity. Qed.

Lemma read_world_frame fore_r w :
  env (read_world fore_r w) = env w
  /\ probes (read_world fore_r w) = probes w
  /\ tick (read_world fore_r w) = tick w
  /\ toolhead (read_world fore_r w) = toolhead w
  /\ probe (read_world fore_r w) = probe w
  /\ helper (read_world fore_r w) = helper w.
Proof. destruct w; repeat split; reflexivity. Qed.

(** C2.  For every mode and every world, [BD_Sensor_Read] stores and (when
    it returns) hands back the accepted raw code divided by 100; it makes
    one round trip when the first code is below 1024 and exactly two when
    it is not, the second answer being accepted whatever it is. *)
Theorem C2_read_is_code_over_100_with_one_requery (fore_r : Z) (w : world) :
  exists w' r,
    BD_Sensor_Read fore_r w = (w', r)
    /\ queries w' =
       (queries w + (if (1024 <=? sensor (env w) (queries w))%Z then 2 else 1))%nat
    /\ accepted_code w =
       (if 1024 <=? sensor (env w) (queries w)
        then sensor (env w) (S (queries w)) else sensor (env w) (queries w))
    /\ bd_value (mcu_probe w') = (inject_Z (accepted_code w) / 100)%Q
    /\ (forall v, r = Return v -> v = (inject_Z (accepted_code w) / 100)%Q)
    /\ r <> Unfinished.
Proof.
  exists (read_world fore_r w), (read_result fore_r (accepted_code w)).
  split; [apply BD_Sensor_Read_run|].
  split; [rewrite read_world_queries; unfold round_trips;
          destruct (1024 <=? _); reflexivity|].
  split; [reflexivity|].
  split; [rewrite read_world_mcu_probe; destruct (mcu_probe w); reflexivity|].
  split.
  - intros v. unfold read_result, calibrated. split_ifs; congruence.
  - apply read_result_finished.
Qed.

(** The scenario of the specification: 1025 answered twice is accepted on
    the second answer, after two round trips and no third. *)
Example read_1025_twice :
  let '(w', r) := BD_Sensor_Read 1 (bench [1025; 1025; 7] 0) in
  r = Return (inject_Z 1025 / 100)%Q /\ queries w' = 2%nat.
Proof. vm_compute. split; reflexivity. Qed.

(** C10.  In mode 1 [BD_Sensor_Read] returns for every raw code, and the
    M102 S-2 report finishes normally: a connection error (code 1024) and
    an out-of-range distance (code >= 390) only choose the text sent back.
    Modes 0 and 2 raise on the same codes. *)
Theorem C10_mode_1_reports_instead_of_raising (w : world) :
  let a := accepted_code w in
  (exists w1,
      BD_Sensor_Read 1 w = (w1, Return (inject_Z a / 100)%Q)
      /\ queries w1 = (queries w + round_trips w)%nat
      /\ exists w2,
          process_M102 (Some (-2)) w = (w2, Return tt)
          /\ trace w2 = Ev_I2C_BD_send "1018" :: Ev_I2C_BD_send "1018"
                        :: Ev_respond_raw (distance_report a) :: trace w1)
  /\ snd (BD_Sensor_Read 0 w) =
       (if 1024 <=? a then Raise (Exn command_error (Msg_data_error (calibrated a)))
        else if 380 <? a then Raise (Exn command_error (Msg_out_of_range (calibrated a)))
        else Return (calibrated a))
  /\ snd (BD_Sensor_Read 2 w) =
       (if 1024 <=? a then Raise (Exn command_error (Msg_data_error (calibrated a)))
        else Return (calibrated a)).
Proof.
  cbn zeta. split; [|split].
  - exists (read_world 1 w).
    split; [apply BD_Sensor_Read_run|].
    split; [apply read_world_queries|].
    unfold process_M102.
    change (Some (-2)) with (Some (-2)%Z).
    cbv beta iota.
    replace (((-2 =? -6) || (-2 =? -7))%bool) with false by reflexivity.
    replace (-2 =? -5) with false by reflexivity.
    replace (-2 =? -1) with false by reflexivity.
    replace (-2 =? -2) with true by reflexivity.
    unfold bind at 1. rewrite BD_Sensor_Read_run.
    change (read_result 1 (accepted_code w)) with (Return (calibrated (accepted_code w))).
    cbv beta iota.
    rewrite calibrated_eq_10_24, calibrated_ge_3_9.
    fold (distance_report (accepted_code w)).
    generalize (distance_report (accepted_code w)) as strd.
    generalize (calibrated (accepted_code w)) as v.
    generalize (read_world 1 w) as w1.
    intros w1 v strd. open_world w1. run_M.
    eexists. split; reflexivity.
  - rewrite BD_Sensor_Read_run. reflexivity.
  - rewrite BD_Sensor_Read_run. reflexivity.
Qed.
(** ** Endstop trigger detector *)

Lemma read_result_0 a :
  read_result 0 a =
    if 1024 <=? a then Raise (Exn command_error (Msg_data_error (calibrated a)))
    else if 380 <? a then Raise (Exn command_error (Msg_out_of_range (calibrated a)))
    else Return (calibrated a).
Proof. reflexivity. Qed.

Lemma read_result_2 a :
  read_result 2 a =
    if 1024 <=? a then Raise (Exn command_error (Msg_data_error (calibrated a)))
    else Return (calibrated a).
Proof. reflexivity. Qed.

(** [query_endstop] in full. *)
Lemma query_endstop_run (w : world) :
  let a := accepted_code w in
  query_endstop w =
    (read_world 2 w,
     if 1024 <=? a
     then Raise (Exn command_error (Msg_data_error (calibrated a)))
     else Return (if Qle_bool (calibrated a) (position_endstop (mcu_probe w))
                  then Triggered else Open)).
Proof.
  cbn zeta. unfold query_endstop.
  unfold bind at 1. rewrite BD_Sensor_Read_run, read_result_2.
  destruct (1024 <=? accepted_code w); [reflexivity|].
  cbv beta iota. unfold read_world. open_world w. run_M.
  destruct (Qle_bool _ _); reflexivity.
Qed.

(** C3.  [query_endstop] makes one forced re-read (the "1018" command, then
    the distance query).  A value of 10.24 mm or more raises the sensor's
    data error and no state is returned; any smaller value returns
    Triggered exactly when it is at most [position_endstop], and Open
    otherwise, so that with a threshold below 2.5 mm every out-of-range
    value in (3.8, 10.24) is Open. *)
Theorem C3_query_endstop_threshold (w : world)
    (Hcfg : (0 <= position_endstop (mcu_probe w) < 2.5)%Q) :
  let a := accepted_code w in
  let T := position_endstop (mcu_probe w) in
  exists w' r,
    query_endstop w = (w', r)
    /\ queries w' = (queries w + round_trips w)%nat
    /\ (exists evs, trace w' = evs ++ Ev_I2C_BD_send "1018" :: trace w
                    /\ ~ In (Ev_I2C_BD_send "1018") evs)
    /\ (1024 <= a ->
        r = Raise (Exn command_error (Msg_data_error (calibrated a))))
    /\ (a < 1024 ->
        (r = Return Triggered /\ (calibrated a <= T)%Q)
        \/ (r = Return Open /\ (T < calibrated a)%Q))
    /\ (380 < a < 1024 -> r = Return Open).
Proof.
  cbn zeta. rewrite query_endstop_run. do 2 eexists.
  split; [reflexivity|]. split; [apply read_world_queries|]. split.
  - rewrite read_world_trace. unfold read_events.
    exists (match read_result 2 (accepted_code w) with
            | Raise e => [Ev_respond_info (str e)]
            | _ => []
            end
            ++ (if 1024 <=? sensor (env w) (queries w)
                then [Ev_I2C_BD_receive "32" (sensor (env w) (S (queries w)))]
                else [])
            ++ [Ev_I2C_BD_receive "32" (sensor (env w) (queries w))]).
    split.
    + change (0 <? 2) with true. cbv iota.
      rewrite <- !app_assoc. reflexivity.
    + intros Hin.
      apply in_app_or in Hin. destruct Hin as [Hin|Hin].
      * destruct (read_result 2 (accepted_code w)); cbn in Hin;
          intuition discriminate.
      * apply in_app_or in Hin. destruct Hin as [Hin|Hin].
        -- destruct (1024 <=? sensor (env w) (queries w)); cbn in Hin;
             intuition discriminate.
        -- cbn in Hin. intuition discriminate.
  - split; [|split].
    + intros Ha. apply Z.leb_le in Ha. rewrite Ha. reflexivity.
    + intros Ha. apply Z.leb_gt in Ha. rewrite Ha.
      destruct (Qle_bool _ _) eqn:Hle.
      * left. split; [reflexivity|]. apply Qle_bool_iff, Hle.
      * right. split; [reflexivity|]. apply Qnot_le_lt. intros Hc.
        apply Qle_bool_iff in Hc. congruence.
    + intros [Hlo Hhi]. apply Z.leb_gt in Hhi. rewrite Hhi.
      destruct (Qle_bool _ _) eqn:Hle; [|reflexivity].
      exfalso. apply Qle_bool_iff in Hle.
      assert (Hv : (3.8 < calibrated (accepted_code w))%Q).
      { apply Qnot_le_lt. intros Hc. apply Qle_bool_iff in Hc.
        rewrite calibrated_le_3_8 in Hc. apply Z.leb_le in Hc. lia. }
      destruct Hcfg as [_ Hcfg]. lra.
Qed.

(** C3, witness.  The scenario of the specification: threshold 1.0 mm, reading 0.8 mm is
    Triggered; and an out-of-range 5.00 mm is Open, not an error. *)
Lemma C3_query_endstop_threshold_witness :
  snd (query_endstop (bench [80] 1.0)) = Return Triggered
  /\ snd (query_endstop (bench [500] 1.0)) = Return Open.
Proof.
  split.
  - assert (Hcfg : (0 <= position_endstop (mcu_probe (bench [80%Z] 1.0)) < 2.5)%Q)
      by (split; [discriminate | reflexivity]).
    destruct (C3_query_endstop_threshold (bench [80] 1.0) Hcfg)
      as (w' & r & Hrun & _ & _ & _ & Hlow & _).
    rewrite Hrun. cbv [snd].
    destruct Hlow as [[Hr _] | [_ Hlt]].
    + vm_compute. reflexivity.
    + exact Hr.
    + exfalso. revert Hlt. vm_compute. discriminate.
  - assert (Hcfg : (0 <= position_endstop (mcu_probe (bench [500%Z] 1.0)) < 2.5)%Q)
      by (split; [discriminate | reflexivity]).
    destruct (C3_query_endstop_threshold (bench [500] 1.0) Hcfg)
      as (w' & r & Hrun & _ & _ & _ & _ & Hoor).
    rewrite Hrun. cbv [snd]. apply Hoor. vm_compute. split; reflexivity.
Defined.
(** ** Multi-probe session *)

Arguments BDsensorEndstopWrapper.BD_Sensor_Read : simpl never.
Arguments read_world : simpl never.
Arguments read_result : simpl never.
Arguments read_events : simpl never.
Arguments accepted_code : simpl never.

Lemma read_result_value fore_r a v :
  read_result fore_r a = Return v -> v = calibrated a.
Proof. unfold read_result. split_ifs; congruence. Qed.

(** The wrapper's [multi_probe_end] in full. *)
Lemma wrapper_multi_probe_end_run (w : world) :
  BDsensorEndstopWrapper.multi_probe_end w =
    let w0 := set_trace (Ev_I2C_BD_send "1018" :: trace w) w in
    let finish w1 :=
      let w2 := set_mcu_probe (set_homeing 0 (mcu_probe w1)) w1 in
      if stow_on_each_sample (mcu_probe w1) then (w2, Return tt)
      else (set_mcu_probe (set_multi OFF (mcu_probe w2)) w2, Return tt) in
    if homeing (mcu_probe w) =? 1 then
      match read_result 0 (accepted_code w0) with
      | Return v =>
          finish (set_trace (Ev_respond_info (Msg_triggered_at v)
                             :: Ev_run_script (Msg_G92 v)
                             :: Ev_sleep 0.004 :: Ev_wait_moves
                             :: trace (read_world 0 w0)) (read_world 0 w0))
      | Raise e => (read_world 0 w0, Raise e)
      | Unfinished => (read_world 0 w0, Unfinished)
      end
    else finish w0.
Proof.
  unfold BDsensorEndstopWrapper.multi_probe_end.
  open_world w. run_M.
  destruct (_ =? 1); cbn.
  - rewrite BD_Sensor_Read_run.
    destruct (read_result 0 _) eqn:Hr; cbn; try reflexivity.
    apply read_result_value in Hr. subst a.
    unfold read_world; cbn. split_ifs; reflexivity.
  - split_ifs; reflexivity.
Qed.

(** It never touches the [PrinterProbe] fields. *)
Lemma wrapper_multi_probe_end_probe (w : world) :
  probe (fst (BDsensorEndstopWrapper.multi_probe_end w)) = probe w.
Proof.
  rewrite wrapper_multi_probe_end_run. cbv zeta.
  destruct (homeing (mcu_probe w) =? 1).
  - destruct (read_result 0 _); unfold read_world; open_world w;
      split_ifs; reflexivity.
  - open_world w. split_ifs; reflexivity.
Qed.

(** After the wrapper's [multi_probe_end] returned, a second one only
    repeats the "1018" command: session state, homing flag, last distance
    and the number of axis corrections stay. *)
Lemma wrapper_multi_probe_end_twice (w w1 : world) :
  BDsensorEndstopWrapper.multi_probe_end w = (w1, Return tt) ->
  BDsensorEndstopWrapper.multi_probe_end w1 =
    (set_trace (Ev_I2C_BD_send "1018" :: trace w1) w1, Return tt).
Proof.
  rewrite !wrapper_multi_probe_end_run. cbv zeta.
  destruct (homeing (mcu_probe w) =? 1).
  - destruct (read_result 0 _); try discriminate.
    unfold read_world. open_world w.
    destruct wstow; cbn; intros H; injection H as <-; cbn; reflexivity.
  - open_world w.
    destruct wstow; cbn; intros H; injection H as <-; cbn; reflexivity.
Qed.

(** [PrinterProbe.multi_probe_end] in full. *)
Lemma probe_multi_probe_end_run (w : world) :
  PrinterProbe.multi_probe_end w =
    if multi_probe_pending (probe w)
    then BDsensorEndstopWrapper.multi_probe_end
           (set_probe (set_multi_probe_pending false (probe w)) w)
    else (w, Return tt).
Proof.
  unfold PrinterProbe.multi_probe_end, PrinterProbe.store_pending.
  unfold bind, gets, modify.
  destruct (multi_probe_pending (probe w)); reflexivity.
Qed.

(** C4.  [PrinterProbe.multi_probe_end] is idempotent.  Whatever the world
    and however the first call ends, the pending flag is cleared, and a
    second call returns at once and leaves the whole world (session state,
    homing flag, trace of hardware commands) exactly as the first call left
    it, so the axis correction is applied at most once; with no session
    pending the first call is already such a no-op.  One level down, a
    second call of the wrapper's own [multi_probe_end] after a first one
    that returned changes no state either: it only repeats the "1018"
    command. *)
Theorem C4_multi_probe_end_idempotent (w : world) :
  let w1 := fst (PrinterProbe.multi_probe_end w) in
  PrinterProbe.multi_probe_end w1 = (w1, Return tt)
  /\ multi_probe_pending (probe w1) = false
  /\ (corrections (trace w1) <= S (corrections (trace w)))%nat
  /\ (multi_probe_pending (probe w) = false ->
      PrinterProbe.multi_probe_end w = (w, Return tt))
  /\ (forall v1, BDsensorEndstopWrapper.multi_probe_end w = (v1, Return tt) ->
      exists v2, BDsensorEndstopWrapper.multi_probe_end v1 = (v2, Return tt)
                 /\ mcu_probe v2 = mcu_probe v1
                 /\ probe v2 = probe v1
                 /\ corrections (trace v2) = corrections (trace v1)).
Proof.
  cbv zeta.
  assert (Hpend : multi_probe_pending
                    (probe (fst (PrinterProbe.multi_probe_end w))) = false).
  { rewrite probe_multi_probe_end_run.
    destruct (multi_probe_pending (probe w)) eqn:Hp; [|exact Hp].
    rewrite wrapper_multi_probe_end_probe.
    destruct w as [? ? ? ? ? ? pr ? ?]; destruct pr; reflexivity. }
  split; [|split; [exact Hpend|split; [|split]]].
  - rewrite (probe_multi_probe_end_run (fst _)), Hpend. reflexivity.
  - rewrite probe_multi_probe_end_run.
    destruct (multi_probe_pending (probe w)); [|cbn; lia].
    rewrite wrapper_multi_probe_end_run. cbv zeta.
    replace (homeing (mcu_probe (set_probe _ w))) with (homeing (mcu_probe w))
      by (destruct w; reflexivity).
    destruct (homeing (mcu_probe w) =? 1).
    + destruct (read_result 0 _) eqn:Hr; unfold read_world, read_events;
        rewrite Hr; open_world w; unfold corrections; split_ifs; cbn; lia.
    + open_world w. unfold corrections. split_ifs; cbn; lia.
  - intros Hp. rewrite probe_multi_probe_end_run, Hp. reflexivity.
  - intros v1 Hrun. rewrite (wrapper_multi_probe_end_twice _ _ Hrun).
    eexists. split; [reflexivity|]. destruct v1; repeat split; reflexivity.
Qed.

(** *** Operations that leave the session alone *)

Lemma keeps_ret {A} (a : A) : keeps_session (ret a).
Proof. intros w. split; reflexivity. Qed.

Lemma keeps_raise {A} k m : keeps_session (@raise A k m).
Proof. intros w. split; reflexivity. Qed.

Lemma keeps_unfinished {A} : keeps_session (@unfinished A).
Proof. intros w. split; reflexivity. Qed.

Lemma keeps_gets {A} (f : world -> A) : keeps_session (gets f).
Proof. intros w. split; reflexivity. Qed.

Lemma keeps_bind {A B} (c : M A) (k : A -> M B) :
  keeps_session c -> (forall a, keeps_session (k a)) -> keeps_session (bind c k).
Proof.
  intros Hc Hk w. unfold bind.
  destruct (Hc w) as [Hm Hs]. destruct (c w) as [w1 [a| |]]; cbn in *.
  - destruct (Hk a w1) as [Hm' Hs']. split; congruence.
  - split; assumption.
  - split; assumption.
Qed.

Lemma keeps_emit e : keeps_session (emit e).
Proof. intros w. destruct w. split; reflexivity. Qed.

Lemma keeps_I2C_BD_receive d : keeps_session (I2C_BD_receive d).
Proof. intros w. destruct w. split; reflexivity. Qed.

Lemma keeps_store_bd_value v : keeps_session (store_bd_value v).
Proof. intros w. open_world w. split; reflexivity. Qed.

Lemma keeps_store_homeing h : keeps_session (store_homeing h).
Proof. intros w. open_world w. split; reflexivity. Qed.

Create HintDb session.
#[local] Hint Resolve keeps_ret keeps_raise keeps_unfinished keeps_gets
  keeps_emit keeps_I2C_BD_receive keeps_store_bd_value keeps_store_homeing
  : session.

(** Walks down a computation, one bind or branch at a time. *)
Ltac keeps :=
  repeat first
    [ solve [auto 1 with session]
    | progress (unfold when, respond_info, respond_raw, I2C_BD_send, Z_Move_Live,
                wait_moves, sleep, dwell, raise_probe, lower_probe)
    | match goal with
      | |- keeps_session (bind _ _) => apply keeps_bind; [|intros]
      | |- keeps_session (if ?c then _ else _) => destruct c
      | |- keeps_session (match ?m with OFF => _ | FIRST => _ | ON => _ end) =>
          destruct m
      end ].

Lemma keeps_BD_Sensor_Read fore_r : keeps_session (BD_Sensor_Read fore_r).
Proof. unfold BD_Sensor_Read. keeps. Qed.

Lemma keeps_query_endstop : keeps_session query_endstop.
Proof. unfold query_endstop. pose proof keeps_BD_Sensor_Read. keeps. Qed.

Lemma keeps_wait_for_trigger : keeps_session wait_for_trigger.
Proof. unfold wait_for_trigger. pose proof keeps_BD_Sensor_Read. keeps. Qed.

Lemma keeps_probe_finish : keeps_session probe_finish.
Proof. unfold probe_finish. keeps. Qed.

Lemma keeps_raw_dump_loop todo : forall n, keeps_session (raw_dump_loop todo n).
Proof.
  induction todo as [|todo IH]; intros n; cbn [raw_dump_loop]; keeps.
Qed.

Lemma keeps_version_loop todo : forall n x, keeps_session (version_loop todo n x).
Proof.
  induction todo as [|todo IH]; intros n x; cbn [version_loop]; keeps.
Qed.

Lemma keeps_process_M102 s : keeps_session (process_M102 s).
Proof.
  unfold process_M102. destruct s as [s|]; [|auto with session].
  pose proof keeps_BD_Sensor_Read.
  pose proof keeps_raw_dump_loop. pose proof keeps_version_loop.
  keeps.
Qed.

(** [multi_probe_begin] and [probe_prepare] of the wrapper in full. *)
Lemma wrapper_multi_probe_begin_run (w : world) :
  BDsensorEndstopWrapper.multi_probe_begin w =
    (if stow_on_each_sample (mcu_probe w) then w
     else set_mcu_probe (set_multi FIRST (mcu_probe w)) w, Return tt).
Proof.
  unfold BDsensorEndstopWrapper.multi_probe_begin. open_world w. run_M.
  destruct wstow; reflexivity.
Qed.

Lemma probe_prepare_run (w : world) :
  probe_prepare w =
    (match multi (mcu_probe w) with
     | FIRST => set_mcu_probe (set_multi ON (mcu_probe w)) w
     | _ => w
     end, Return tt).
Proof.
  unfold probe_prepare. open_world w. run_M. destruct wmulti; reflexivity.
Qed.

(** The session state after the wrapper's [multi_probe_end]. *)
Lemma wrapper_multi_probe_end_session (w : world) :
  let '(w', r) := BDsensorEndstopWrapper.multi_probe_end w in
  stow_on_each_sample (mcu_probe w') = stow_on_each_sample (mcu_probe w)
  /\ (multi (mcu_probe w') = multi (mcu_probe w)
      \/ (stow_on_each_sample (mcu_probe w) = false /\ multi (mcu_probe w') = OFF))
  /\ (r = Return tt -> stow_on_each_sample (mcu_probe w) = false ->
      multi (mcu_probe w') = OFF).
Proof.
  rewrite wrapper_multi_probe_end_run. cbv zeta.
  destruct (homeing (mcu_probe w) =? 1).
  - destruct (read_result 0 _); unfold read_world; open_world w;
      try destruct wstow; cbn; repeat split; auto; discriminate.
  - open_world w. destruct wstow; cbn; repeat split; auto; discriminate.
Qed.

(** C8, counterexample.  The claim as worded fails: a [begin] issued while a session is On takes
    the state back to First.  The world is the bench printer configured to
    keep the probe deployed, after [begin] and a first [probe_prepare]. *)
Lemma C8_begin_while_on_goes_back_to_first :
  let w0 := batching (bench [] 0) in
  let w1 := fst (run_op Op_multi_probe_begin w0) in
  let w2 := fst (run_op Op_probe_prepare w1) in
  let w3 := fst (run_op Op_multi_probe_begin w2) in
  (multi (mcu_probe w0) = OFF /\ multi (mcu_probe w1) = FIRST
   /\ multi (mcu_probe w2) = ON /\ multi (mcu_probe w3) = FIRST)
  /\ ~ ordered_transition Op_multi_probe_begin
         (stow_on_each_sample (mcu_probe w2))
         (multi (mcu_probe w2)) (multi (mcu_probe w3)).
Proof.
  cbv zeta. split.
  - repeat split; reflexivity.
  - change (~ ordered_transition Op_multi_probe_begin false ON FIRST).
    intros [H | [(_ & _ & H & _) | [(H & _) | (H & _)]]]; discriminate.
Qed.

(** C8 (amended).  The session state is one of Off, First, On (the type
    [multi_state]), no operation changes the stow option, and an operation
    changes the state in three ways only: [multi_probe_begin] without
    stowing sets First from whatever state it is in, [probe_prepare] takes
    First to On, and [multi_probe_end] without stowing, when it returns,
    sets Off.  With stowing on every sample the state never leaves Off.
    When [begin] is only issued in state Off, every step is one of the
    ordered transitions Off to First, First to On, back to Off. *)
Theorem C8_session_transitions (o : wrapper_op) (w : world) :
  let w' := fst (run_op o w) in
  let stow := stow_on_each_sample (mcu_probe w) in
  let m := multi (mcu_probe w) in
  let m' := multi (mcu_probe w') in
  stow_on_each_sample (mcu_probe w') = stow
  /\ session_transition o stow m m'
  /\ (stow = true -> m = OFF -> m' = OFF)
  /\ (o = Op_multi_probe_begin -> stow = false -> m' = FIRST)
  /\ (o = Op_probe_prepare -> m = FIRST -> m' = ON)
  /\ (o = Op_multi_probe_end -> stow = false ->
      snd (run_op o w) = Return tt -> m' = OFF)
  /\ ((o = Op_multi_probe_begin -> m = OFF) -> ordered_transition o stow m m').
Proof.
  cbv zeta.
  assert (Hkeep : forall c : M unit,
             keeps_session c -> run_op o = c ->
             o <> Op_multi_probe_begin -> o <> Op_probe_prepare ->
             o <> Op_multi_probe_end ->
             stow_on_each_sample (mcu_probe (fst (run_op o w))) =
               stow_on_each_sample (mcu_probe w)
             /\ multi (mcu_probe (fst (run_op o w))) = multi (mcu_probe w)).
  { intros c Hc -> _ _ _. destruct (Hc w). split; assumption. }
  destruct o;
    try (match goal with
         | |- context [run_op ?op] =>
             edestruct (Hkeep (run_op op)) as [Hs Hm];
             [ cbn [run_op]; pose proof keeps_BD_Sensor_Read;
               pose proof keeps_query_endstop; pose proof keeps_wait_for_trigger;
               pose proof keeps_probe_finish; pose proof keeps_process_M102;
               unfold home_start; keeps
             | reflexivity | discriminate | discriminate | discriminate | ]
         end;
         rewrite Hs, Hm; unfold session_transition, ordered_transition;
         intuition (try congruence)).
  - (* multi_probe_begin *)
    cbn [run_op]. rewrite wrapper_multi_probe_begin_run. cbn [fst snd].
    open_world w. unfold session_transition, ordered_transition.
    destruct wstow; cbn; intuition (try congruence).
  - (* multi_probe_end *)
    cbn [run_op].
    pose proof (wrapper_multi_probe_end_session w) as H.
    destruct (BDsensorEndstopWrapper.multi_probe_end w) as [w' r].
    cbn [fst snd]. destruct H as (Hs & Hm & Hret).
    rewrite Hs. unfold session_transition, ordered_transition.
    destruct Hm as [Hm | [Hf Hm]]; rewrite Hm; intuition (try congruence).
  - (* probe_prepare *)
    cbn [run_op]. rewrite probe_prepare_run. cbn [fst snd].
    open_world w. unfold session_transition, ordered_transition.
    destruct wmulti; cbn; intuition (try congruence).
Qed.

(** ** Raw-value dump *)

(** One pass of the dump loop, by verdict. *)
Lemma raw_dump_loop_step (todo : nat) (ncount1 : Z) (w : world) :
  raw_dump_loop (S todo) ncount1 w =
    let raw := sensor (env w) (queries w) in
    let w1 := sampled w in
    match dump_verdict ncount1 raw with
    | Too_close_or_too_high =>
        (set_trace (Ev_respond_raw text_too_close_or_too_high :: trace w1) w1,
         Raise (Exn TypeError
                  (Text "not all arguments converted during string formatting")))
    | Too_high =>
        (set_trace (Ev_respond_raw text_too_high :: trace w1) w1, Return tt)
    | Too_close =>
        (set_trace (Ev_respond_raw text_too_close :: trace w1) w1, Return tt)
    | Plausible =>
        let w2 := set_trace (Ev_dwell 0.1 :: trace w1) w1 in
        if 40 <=? ncount1 + 1 then (w2, Return tt)
        else raw_dump_loop todo (ncount1 + 1) w2
    end.
Proof.
  cbn [raw_dump_loop]. unfold dump_verdict, sampled. open_world w. run_M.
  destruct ((ncount1 <=? 3) && (550 <? sensor wenv wqueries))%bool; cbn.
  - destruct (1015 <=? sensor wenv wqueries); reflexivity.
  - destruct (sensor wenv wqueries <? 45); cbn; [reflexivity|].
    destruct (40 <=? ncount1 + 1); reflexivity.
Qed.

Lemma dump_verdict_cases (n raw : Z) :
  (dump_verdict n raw = Too_close_or_too_high <-> n <= 3 /\ 1015 <= raw)
  /\ (dump_verdict n raw = Too_high <-> n <= 3 /\ 550 < raw < 1015)
  /\ (dump_verdict n raw = Too_close <-> raw < 45)
  /\ (dump_verdict n raw = Plausible <->
      45 <= raw /\ (raw <= 550 \/ 3 < n)).
Proof.
  unfold dump_verdict.
  destruct (Z.leb_spec n 3), (Z.ltb_spec 550 raw), (Z.leb_spec 1015 raw),
    (Z.ltb_spec raw 45); cbn; repeat split; intros; try discriminate; try lia.
Qed.

(** The dump only fails after reporting "too close or too high". *)
Lemma raw_dump_loop_raises (todo : nat) :
  forall ncount1 w w' e,
    raw_dump_loop todo ncount1 w = (w', Raise e) ->
    exists raw t,
      trace w' = Ev_respond_raw text_too_close_or_too_high
                   :: Ev_respond_raw (Msg_int raw) :: t
      /\ 1015 <= raw.
Proof.
  induction todo as [|todo IH]; intros n w w' e; [discriminate|].
  rewrite raw_dump_loop_step. cbv zeta.
  destruct (dump_verdict n _) eqn:Hv; try discriminate.
  - intros H. injection H as <- _.
    apply dump_verdict_cases in Hv.
    exists (sensor (env w) (queries w)). eexists.
    split; [|apply Hv]. unfold sampled. destruct w; reflexivity.
  - destruct (40 <=? n + 1); [discriminate|]. apply IH.
Qed.

(** The dump stops by itself within forty samples. *)
Lemma raw_dump_loop_finishes (todo : nat) :
  forall ncount1 w,
    40 <= ncount1 + Z.of_nat todo -> (0 < todo)%nat ->
    snd (raw_dump_loop todo ncount1 w) <> Unfinished.
Proof.
  induction todo as [|todo IH]; intros n w Hn Ht; [lia|].
  rewrite raw_dump_loop_step. cbv zeta.
  destruct (dump_verdict n _); try discriminate.
  destruct (Z.leb_spec 40 (n + 1)); [discriminate|].
  apply IH; lia.
Qed.

(** C9, counterexample.  The claim as worded fails on the code: a first raw value of exactly
    1015 is already fatal (the specification's wording makes it "too high"
    at most), a raw value of 600 is reported on the very first sample, and a
    raw value of 1020 read as fifth sample is not reported at all. *)
Lemma C9_thresholds_differ_from_wording :
  (snd (process_M102 (Some (-5)) (bench [1015] 0))
     = Raise (Exn TypeError
                (Text "not all arguments converted during string formatting"))
   /\ reported (trace (fst (process_M102 (Some (-5)) (bench [1015] 0))))
        text_too_close_or_too_high
   /\ worded_verdict 0 1015 <> Too_close_or_too_high)
  /\ (reported (trace (fst (process_M102 (Some (-5)) (bench [600] 0))))
        text_too_high
      /\ worded_verdict 0 600 <> Too_high)
  /\ (snd (process_M102 (Some (-5)) (bench [500; 500; 500; 500; 1020] 0))
        = Return tt
      /\ ~ reported
             (trace (fst (process_M102 (Some (-5))
                            (bench [500; 500; 500; 500; 1020] 0))))
             text_too_close_or_too_high
      /\ worded_verdict 4 1020 = Too_close_or_too_high).
Proof.
  split; [|split].
  - split; [vm_compute; reflexivity|]. split.
    + vm_compute. left. reflexivity.
    + vm_compute. discriminate.
  - split.
    + vm_compute. right; right. left. reflexivity.
    + vm_compute. discriminate.
  - split; [vm_compute; reflexivity|]. split.
    + vm_compute. intros H.
      repeat (destruct H as [H|H]; [discriminate|]). exact H.
    + vm_compute. reflexivity.
Qed.

(** C9 (amended).  Each raw sample is echoed and then judged by
    [dump_verdict]: among the first four samples ([ncount1 <= 3]) a value of
    1015 or more reports "too close or too high" and raises, and a value in
    (550, 1015) reports "too high" and ends the dump; at any sample not so
    judged a value below 45 reports "too close" and ends the dump; any other
    sample lets the dump go on, for forty samples at most.  The dump, and
    with it M102 S-5, raises only right after the "too close or too high"
    report. *)
Theorem C9_mount_height_checks (todo : nat) (ncount1 : Z) (w : world) :
  let raw := sensor (env w) (queries w) in
  let w1 := sampled w in
  raw_dump_loop (S todo) ncount1 w =
    match dump_verdict ncount1 raw with
    | Too_close_or_too_high =>
        (set_trace (Ev_respond_raw text_too_close_or_too_high :: trace w1) w1,
         Raise (Exn TypeError
                  (Text "not all arguments converted during string formatting")))
    | Too_high =>
        (set_trace (Ev_respond_raw text_too_high :: trace w1) w1, Return tt)
    | Too_close =>
        (set_trace (Ev_respond_raw text_too_close :: trace w1) w1, Return tt)
    | Plausible =>
        let w2 := set_trace (Ev_dwell 0.1 :: trace w1) w1 in
        if 40 <=? ncount1 + 1 then (w2, Return tt)
        else raw_dump_loop todo (ncount1 + 1) w2
    end
  /\ (dump_verdict ncount1 raw = Too_close_or_too_high <->
      ncount1 <= 3 /\ 1015 <= raw)
  /\ (dump_verdict ncount1 raw = Too_high <-> ncount1 <= 3 /\ 550 < raw < 1015)
  /\ (dump_verdict ncount1 raw = Too_close <-> raw < 45)
  /\ (forall w' e,
        process_M102 (Some (-5)) w = (w', Raise e) ->
        exists raw' t,
          trace w' = Ev_respond_raw text_too_close_or_too_high
                       :: Ev_respond_raw (Msg_int raw') :: t
          /\ 1015 <= raw')
  /\ snd (process_M102 (Some (-5)) w) <> Unfinished.
Proof.
  cbv zeta. split; [apply raw_dump_loop_step|].
  destruct (dump_verdict_cases ncount1 (sensor (env w) (queries w)))
    as (H1 & H2 & H3 & _).
  split; [exact H1|]. split; [exact H2|]. split; [exact H3|].
  assert (Hrun : forall w0,
             process_M102 (Some (-5)) w0 =
               bind (I2C_BD_send "1017") (fun _ =>
               bind (I2C_BD_send "1017") (fun _ =>
               bind (raw_dump_loop 40 0) (fun _ =>
               bind (I2C_BD_send "1018") (fun _ => I2C_BD_send "1018")))) w0)
    by reflexivity.
  split.
  - intros w' e. rewrite Hrun. unfold bind at 1 2, I2C_BD_send, emit, modify.
    unfold bind at 1.
    destruct (raw_dump_loop 40 0 _) as [wd [[]|ed|]] eqn:Hd.
    + unfold bind, I2C_BD_send, emit, modify. discriminate.
    + intros H. injection H as <- <-.
      eapply raw_dump_loop_raises. exact Hd.
    + discriminate.
  - rewrite Hrun. unfold bind at 1 2, I2C_BD_send, emit, modify.
    unfold bind at 1.
    pose proof (raw_dump_loop_finishes 40 0
                  (set_trace (Ev_I2C_BD_send "1017"
                     :: trace (set_trace (Ev_I2C_BD_send "1017" :: trace w) w))
                     (set_trace (Ev_I2C_BD_send "1017" :: trace w) w))) as Hf.
    destruct (raw_dump_loop 40 0 _) as [wd [[]|ed|]] eqn:Hd.
    + unfold bind, I2C_BD_send, emit, modify. discriminate.
    + discriminate.
    + exfalso. apply Hf; [lia | lia | reflexivity].
Qed.

(** ** Aggregation of the samples *)

Section Aggregation.

Import PrinterProbe.

Lemma fold_left_Qplus (l : list Q) : forall a, (fold_left Qplus l a == a + Qsum l)%Q.
Proof.
  induction l as [|x l IH]; intros a; unfold Qsum; cbn [fold_left fold_right].
  - ring.
  - fold (Qsum l). rewrite IH. ring.
Qed.

Lemma py_sum_Qsum (l : list Q) : (py_sum l == Qsum l)%Q.
Proof. unfold py_sum. rewrite fold_left_Qplus. ring. Qed.

Lemma insert_by_z_perm p l : Permutation (insert_by_z p l) (p :: l).
Proof.
  induction l as [|q r IH]; cbn; [reflexivity|].
  destruct (Qle_bool (pz p) (pz q)); [reflexivity|].
  rewrite IH. apply perm_swap.
Qed.



Lemma insert_by_z_ascending p l : ascending_z l -> ascending_z (insert_by_z p l).
Proof.
  unfold ascending_z. induction 1 as [|q r Hr IH Hq]; cbn.
  - repeat constructor.
  - destruct (Qle_bool (pz p) (pz q)) eqn:Hle.
    + apply Qle_bool_iff in Hle. constructor.
      * constructor; assumption.
      * constructor; [exact Hle|].
        eapply Forall_impl; [|exact Hq]. cbn. intros x Hx.
        eapply Qle_trans; eassumption.
    + constructor; [exact IH|].
      assert (Hlt : (pz q <= pz p)%Q).
      { apply Qlt_le_weak, Qnot_le_lt. intros Hc.
        apply Qle_bool_iff in Hc. congruence. }
      eapply Permutation_Forall.
      * symmetry. apply insert_by_z_perm.
      * constructor; assumption.
Qed.

Lemma sorted_by_z_ascending l : ascending_z (sorted_by_z l).
Proof.
  induction l as [|p l IH]; cbn.
  - constructor.
  - apply insert_by_z_ascending, IH.
Qed.

(** The sort is stable: the samples of one height keep their order. *)
Lemma insert_by_z_filter v p l :
  ascending_z l ->
  filter (fun q => Qeq_bool (pz q) v) (insert_by_z p l) =
  filter (fun q => Qeq_bool (pz q) v) (p :: l).
Proof.
  induction l as [|q r IH]; intros Hl; [reflexivity|].
  cbn [insert_by_z]. destruct (Qle_bool (pz p) (pz q)) eqn:Hle; [reflexivity|].
  apply StronglySorted_inv in Hl. destruct Hl as [Hr _].
  cbn [filter] in *. rewrite (IH Hr).
  destruct (Qeq_bool (pz p) v) eqn:Hp; [|reflexivity].
  destruct (Qeq_bool (pz q) v) eqn:Hq; [|reflexivity].
  exfalso. apply Qeq_bool_iff in Hp, Hq.
  assert (Hc : Qle_bool (pz p) (pz q) = true).
  { apply Qle_bool_iff. rewrite Hp, Hq. apply Qle_refl. }
  congruence.
Qed.

Lemma sorted_by_z_stable v l :
  filter (fun q => Qeq_bool (pz q) v) (sorted_by_z l) =
  filter (fun q => Qeq_bool (pz q) v) l.
Proof.
  induction l as [|p l IH]; [reflexivity|].
  cbn [sorted_by_z fold_right]. fold (sorted_by_z l).
  rewrite insert_by_z_filter by apply sorted_by_z_ascending.
  cbn [filter]. rewrite IH. reflexivity.
Qed.




(** [_calc_mean] on a list with at least one sample. *)
Lemma _calc_mean_run (positions : list pos3) (w : world) :
  positions <> [] ->
  exists m,
    _calc_mean positions w = (w, Return m)
    /\ (px m == average (map px positions))%Q
    /\ (py m == average (map py positions))%Q
    /\ (pz m == average (map pz positions))%Q.
Proof.
  intros Hne. destruct positions as [|p r]; [congruence|].
  eexists. split; [reflexivity|].
  unfold average. rewrite !length_map.
  cbn [px py pz]. rewrite !py_sum_Qsum. repeat split; reflexivity.
Qed.



End Aggregation.

(** ** Sample acquisition *)

Section SampleAcquisition.

Import PrinterProbe.

(** *** The extrema of a list *)

Lemma py_max_snoc z zs x :
  py_max z (zs ++ [x]) = if Qle_bool x (py_max z zs) then py_max z zs else x.
Proof. unfold py_max. rewrite fold_left_app. reflexivity. Qed.

Lemma py_min_snoc z zs x :
  py_min z (zs ++ [x]) = if Qle_bool (py_min z zs) x then py_min z zs else x.
Proof. unfold py_min. rewrite fold_left_app. reflexivity. Qed.

Lemma Qle_bool_false x y : Qle_bool x y = false -> (y < x)%Q.
Proof.
  intros H. apply Qnot_le_lt. intros Hc. apply Qle_bool_iff in Hc. congruence.
Qed.

Lemma py_max_ge zs : forall z x, In x (z :: zs) -> (x <= py_max z zs)%Q.
Proof.
  induction zs as [|y zs IH] using rev_ind; intros z x Hin.
  - destruct Hin as [<-|[]]. apply Qle_refl.
  - rewrite py_max_snoc.
    assert (Hcase : In x (z :: zs) \/ x = y).
    { destruct Hin as [<-|Hin]; [left; left; reflexivity|].
      apply in_app_or in Hin. destruct Hin as [Hin|[<-|[]]]; auto.
      left; right; exact Hin. }
    destruct (Qle_bool y (py_max z zs)) eqn:Hle.
    + destruct Hcase as [H| ->]; [apply IH, H | apply Qle_bool_iff, Hle].
    + apply Qle_bool_false in Hle.
      destruct Hcase as [H| ->]; [|apply Qle_refl].
      apply Qle_trans with (py_max z zs); [apply IH, H | apply Qlt_le_weak, Hle].
Qed.

Lemma py_min_le zs : forall z x, In x (z :: zs) -> (py_min z zs <= x)%Q.
Proof.
  induction zs as [|y zs IH] using rev_ind; intros z x Hin.
  - destruct Hin as [<-|[]]. apply Qle_refl.
  - rewrite py_min_snoc.
    assert (Hcase : In x (z :: zs) \/ x = y).
    { destruct Hin as [<-|Hin]; [left; left; reflexivity|].
      apply in_app_or in Hin. destruct Hin as [Hin|[<-|[]]]; auto.
      left; right; exact Hin. }
    destruct (Qle_bool (py_min z zs) y) eqn:Hle.
    + destruct Hcase as [H| ->]; [apply IH, H | apply Qle_bool_iff, Hle].
    + apply Qle_bool_false in Hle.
      destruct Hcase as [H| ->]; [|apply Qle_refl].
      apply Qle_trans with (py_min z zs); [apply Qlt_le_weak, Hle | apply IH, H].
Qed.

(** A set that passes the test has every pair within the tolerance. *)
Lemma exceeds_false_within tol ps :
  exceeds tol ps = false -> within_tolerance tol ps.
Proof.
  unfold exceeds, within_tolerance. intros H a b Ha Hb.
  destruct (map pz ps) as [|z zs] eqn:Hz.
  - destruct ps; [destruct Ha | discriminate].
  - apply negb_false_iff, Qle_bool_iff in H.
    assert (Hza : In (pz a) (z :: zs)) by (rewrite <- Hz; apply in_map, Ha).
    assert (Hzb : In (pz b) (z :: zs)) by (rewrite <- Hz; apply in_map, Hb).
    apply py_max_ge in Hza. apply py_min_le in Hzb. lra.
Qed.

(** One more sample never brings a set back under the tolerance. *)
Lemma exceeds_snoc tol ps p :
  exceeds tol ps = true -> exceeds tol (ps ++ [p]) = true.
Proof.
  unfold exceeds. rewrite map_app. cbn [map].
  destruct (map pz ps) as [|z zs]; [discriminate|].
  cbn [app]. rewrite py_max_snoc, py_min_snoc.
  intros H. apply negb_true_iff, Qle_bool_false in H.
  apply negb_true_iff.
  destruct (Qle_bool _ tol) eqn:Hc; [|reflexivity].
  exfalso. apply Qle_bool_iff in Hc.
  destruct (Qle_bool (pz p) (py_max z zs)) eqn:H1;
    destruct (Qle_bool (py_min z zs) (pz p)) eqn:H2;
    try apply Qle_bool_iff in H1; try apply Qle_bool_iff in H2;
    try apply Qle_bool_false in H1; try apply Qle_bool_false in H2; lra.
Qed.

(** *** The blocks of the loop body *)

Variable g : gcmd.

(** "Check samples tolerance" has three ways out: the set passes and is
    kept; it fails with a retry left, and is emptied; it fails with none
    left, and the tolerance error is raised on the set as it stands. *)
Lemma check_tolerance_cases (fr : frame) (w : world) :
  positions fr <> [] ->
  exists w' fr' fl,
    check_tolerance g fr w = (w', Return (fr', fl))
    /\ ((exceeds (SAMPLES_TOLERANCE g) (positions fr) = false
         /\ fr' = fr /\ fl = Continue)
        \/ (exceeds (SAMPLES_TOLERANCE g) (positions fr) = true
            /\ (retries fr < SAMPLES_TOLERANCE_RETRIES g)%nat
            /\ fr' = {| positions := []; retries := S (retries fr) |}
            /\ fl = Continue)
        \/ (exceeds (SAMPLES_TOLERANCE g) (positions fr) = true
            /\ (SAMPLES_TOLERANCE_RETRIES g <= retries fr)%nat
            /\ fr' = fr /\ fl = Raised tolerance_error)).
Proof.
  intros Hne. unfold check_tolerance, exceeds.
  destruct (map pz (positions fr)) as [|z zs] eqn:Hz.
  { destruct (positions fr); [congruence | discriminate]. }
  destruct (negb (Qle_bool _ _)).
  - destruct (Nat.leb_spec (SAMPLES_TOLERANCE_RETRIES g) (retries fr)).
    + do 3 eexists. split; [reflexivity|]. right; right. auto.
    + unfold bind, respond_info, emit, modify, ret.
      do 3 eexists. split; [reflexivity|]. right; left. auto.
  - do 3 eexists. split; [reflexivity|]. left. auto.
Qed.

(** The direct sensor read either is not attempted, or fails before a
    sample is taken, or appends one sample and checks the tolerance. *)
Lemma direct_read_cases (fr : frame) (w : world) :
  exists w' fr' fl,
    direct_read g fr w = (w', Return (fr', fl))
    /\ ((direct_read_command g = false /\ fr' = fr /\ fl = FallThrough)
        \/ (direct_read_command g = true /\ fr' = fr /\ exists e, fl = Raised e)
        \/ (direct_read_command g = true /\ exists pos w1,
              check_tolerance g {| positions := positions fr ++ [pos];
                                   retries := retries fr |} w1
                = (w', Return (fr', fl)))).
Proof.
  unfold direct_read. destruct (direct_read_command g).
  - unfold bind at 1, reify.
    unfold bind at 1 2 3, wait_moves, sleep, emit, modify, get_position, gets.
    unfold bind at 1. rewrite BD_Sensor_Read_run.
    destruct (read_result 0 _) as [intd|e|] eqn:Hr.
    + unfold bind, respond_info, emit, modify, ret.
      match goal with
      | |- context [check_tolerance g ?f ?w1] =>
          destruct (check_tolerance_cases f w1) as (w' & fr' & fl & Hc & _)
      end.
      { cbn. destruct (positions fr); discriminate. }
      exists w', fr', fl. split; [exact Hc|]. right; right.
      split; [reflexivity|]. eauto.
    + unfold ret. do 3 eexists. split; [reflexivity|]. right; left. eauto.
    + exfalso. eapply read_result_finished, Hr.
  - unfold ret. do 3 eexists. split; [reflexivity|]. left. auto.
Qed.

Lemma _probe_finished v w : snd (_probe v w) <> Unfinished.
Proof.
  unfold _probe, try_except, probing_move_call, get_position.
  destruct w as [e q p k [pos homed] b pr h t].
  run_M. destruct homed; cbn; [|discriminate].
  destruct (probing_move e p) as [epos|reason]; cbn; discriminate.
Qed.

Lemma manual_move_returns x y z v w :
  exists w', manual_move x y z v w = (w', Return tt).
Proof. unfold manual_move. run_M. eexists. reflexivity. Qed.

(** The mechanical probe never raises after a set passed: it returns the
    set with one more sample, within the tolerance, or an emptied set with
    one more retry spent.  On a set that already exceeds the tolerance with
    no retry left it cannot return. *)
Lemma mechanical_probe_cases (xy : Q * Q) (fr : frame) (w : world) :
  match snd (mechanical_probe g xy fr w) with
  | Return fr' =>
      (exists pos, fr' = {| positions := positions fr ++ [pos];
                            retries := retries fr |}
                   /\ exceeds (SAMPLES_TOLERANCE g) (positions fr ++ [pos]) = false)
      \/ ((retries fr < SAMPLES_TOLERANCE_RETRIES g)%nat
          /\ fr' = {| positions := []; retries := S (retries fr) |})
  | Raise _ => True
  | Unfinished => False
  end.
Proof.
  unfold mechanical_probe. unfold bind at 1.
  pose proof (_probe_finished (PROBE_SPEED g) w) as Hfin.
  destruct (_probe (PROBE_SPEED g) w) as [w1 [pos|e|]]; cbn [snd] in *;
    [|exact I|congruence].
  unfold bind at 1.
  match goal with
  | |- context [check_tolerance g ?f w1] =>
      destruct (check_tolerance_cases f w1) as (w2 & fr' & fl & Hc & Hcase)
  end.
  { cbn. destruct (positions fr); discriminate. }
  rewrite Hc. cbv beta iota.
  destruct Hcase as [(Hex & -> & ->) | [(Hex & Hret & -> & ->) | (Hex & Hret & -> & ->)]];
    cbn [positions retries] in *.
  - unfold _move.
    destruct (_ <? _)%nat;
      [destruct (manual_move_returns (Some (fst xy)) (Some (snd xy))
                   (Some (pz pos + SAMPLE_RETRACT_DIST g)%Q) (LIFT_SPEED g) w2)
         as [w3 Hm]; unfold bind; rewrite Hm|];
      cbn; left; eauto.
  - unfold _move.
    destruct (_ <? _)%nat;
      [destruct (manual_move_returns (Some (fst xy)) (Some (snd xy))
                   (Some (pz pos + SAMPLE_RETRACT_DIST g)%Q) (LIFT_SPEED g) w2)
         as [w3 Hm]; unfold bind; rewrite Hm|];
      cbn; right; auto.
  - exact I.
Qed.

Lemma mechanical_probe_exceeded (xy : Q * Q) (fr : frame) (w : world) :
  exceeds (SAMPLES_TOLERANCE g) (positions fr) = true ->
  (SAMPLES_TOLERANCE_RETRIES g <= retries fr)%nat ->
  exists w' e, mechanical_probe g xy fr w = (w', Raise e).
Proof.
  intros Hex Hret.
  pose proof (mechanical_probe_cases xy fr w) as H.
  destruct (mechanical_probe g xy fr w) as [w' [fr'|e|]]; cbn [snd] in H.
  - exfalso. destruct H as [(pos & _ & Hok) | (Hlt & _)]; [|lia].
    rewrite (exceeds_snoc _ _ pos Hex) in Hok. discriminate.
  - eauto.
  - destruct H.
Qed.

(** *** The loop *)

(** Started on a set that passes the test, with enough passes allowed, the
    loop does not run out of passes, and a set it returns has exactly
    [SAMPLES] samples and passes the test. *)
Lemma sample_loop_sound (xy : Q * Q) (fuel : nat) :
  forall fr w,
    (List.length (positions fr) <= SAMPLES g)%nat ->
    (retries fr <= SAMPLES_TOLERANCE_RETRIES g)%nat ->
    exceeds (SAMPLES_TOLERANCE g) (positions fr) = false ->
    (passes_left g fr <= fuel)%nat ->
    match snd (sample_loop fuel g xy fr w) with
    | Return ps =>
        List.length ps = SAMPLES g /\ exceeds (SAMPLES_TOLERANCE g) ps = false
    | Raise _ => True
    | Unfinished => False
    end.
Proof.
  induction fuel as [|fuel IH]; intros fr w Hlen Hret Hok Hfuel;
    cbn [sample_loop]; destruct (Nat.ltb_spec (List.length (positions fr)) (SAMPLES g)).
  - unfold passes_left in Hfuel.
    remember ((SAMPLES_TOLERANCE_RETRIES g - retries fr) * SAMPLES g)%nat as k.
    lia.
  - cbn. split; [lia | exact Hok].
  - (* one pass *)
    assert (Hstep : forall fr',
               (List.length (positions fr') <= SAMPLES g)%nat ->
               (retries fr' <= SAMPLES_TOLERANCE_RETRIES g)%nat ->
               exceeds (SAMPLES_TOLERANCE g) (positions fr') = false ->
               (positions fr' = positions fr ++ [hd (mk_pos 0 0 0) (rev (positions fr'))]
                /\ retries fr' = retries fr
                \/ positions fr' = [] /\ retries fr' = S (retries fr)) ->
               forall w',
               match snd (sample_loop fuel g xy fr' w') with
               | Return ps =>
                   List.length ps = SAMPLES g
                   /\ exceeds (SAMPLES_TOLERANCE g) ps = false
               | Raise _ => True
               | Unfinished => False
               end).
    { intros fr' Hl' Hr' Hok' Hshape w'. apply IH; try assumption.
      unfold passes_left in *.
      destruct Hshape as [[Hp Hq] | [Hp Hq]]; rewrite Hp, Hq.
      - rewrite length_app. cbn [List.length].
        remember ((SAMPLES_TOLERANCE_RETRIES g - retries fr) * SAMPLES g)%nat as k.
        lia.
      - cbn [List.length].
        replace (SAMPLES_TOLERANCE_RETRIES g - retries fr)%nat
          with (S (SAMPLES_TOLERANCE_RETRIES g - S (retries fr))) in Hfuel by lia.
        rewrite Nat.mul_succ_l in Hfuel.
        remember ((SAMPLES_TOLERANCE_RETRIES g - S (retries fr)) * SAMPLES g)%nat
          as k.
        lia. }
    assert (Hmech : forall w1 (pre : M unit),
               (forall w0, exists w0', pre w0 = (w0', Return tt)) ->
               match snd (bind pre (fun _ =>
                            bind (mechanical_probe g xy fr)
                                 (fun fr0 => sample_loop fuel g xy fr0)) w1) with
               | Return ps =>
                   List.length ps = SAMPLES g
                   /\ exceeds (SAMPLES_TOLERANCE g) ps = false
               | Raise _ => True
               | Unfinished => False
               end).
    { intros w1 pre Hpre. unfold bind at 1.
      destruct (Hpre w1) as [w2 ->]. unfold bind at 1.
      pose proof (mechanical_probe_cases xy fr w2) as Hm.
      destruct (mechanical_probe g xy fr w2) as [w3 [fr'|e|]]; cbn [snd] in Hm;
        [|exact I|destruct Hm].
      destruct Hm as [(pos & -> & Hok') | (Hlt & ->)].
      - apply Hstep; cbn [positions retries]; try assumption.
        + rewrite length_app. cbn [List.length]. lia.
        + left. rewrite rev_app_distr. cbn. auto.
      - apply Hstep; cbn [positions retries List.length];
          [lia | lia | reflexivity | right; auto]. }
    unfold bind at 1.
    destruct (direct_read_cases fr w) as (w1 & fr1 & fl & Hd & Hcase).
    rewrite Hd. cbv beta iota.
    destruct Hcase as [(_ & -> & ->) | [(_ & -> & e & ->) | (_ & pos & w0 & Hc)]].
    + apply Hmech. intros w0. unfold ret. eauto.
    + apply Hmech. intros w0. unfold respond_info, emit, modify. eauto.
    + match type of Hc with
      | check_tolerance g ?f _ = _ =>
          destruct (check_tolerance_cases f w0) as (w1' & fr1' & fl' & Hc' & Hcase)
      end.
      { cbn. destruct (positions fr); discriminate. }
      rewrite Hc in Hc'. injection Hc' as <- <- <-.
      destruct Hcase as [(Hex & -> & ->) | [(Hex & Hlt & -> & ->) | (Hex & Hge & -> & ->)]];
        cbn [positions retries] in *.
      * apply Hstep; cbn [positions retries]; try assumption.
        -- rewrite length_app. cbn [List.length]. lia.
        -- left. rewrite rev_app_distr. cbn. auto.
      * apply Hstep; cbn [positions retries List.length];
          [lia | lia | reflexivity | right; auto].
      * (* the tolerance error, swallowed by the blanket handler *)
        unfold bind at 1, respond_info, emit, modify. unfold bind at 1.
        match goal with
        | |- context [mechanical_probe g xy ?f ?w2] =>
            destruct (mechanical_probe_exceeded xy f w2) as (w3 & e3 & ->)
        end; cbn [positions retries]; auto.
        exact I.
  - cbn. split; [lia | exact Hok].
Qed.

Lemma probe_multi_probe_begin_returns w :
  exists w', PrinterProbe.multi_probe_begin w = (w', Return tt).
Proof.
  unfold PrinterProbe.multi_probe_begin, store_pending. unfold bind.
  rewrite wrapper_multi_probe_begin_run. unfold modify. eauto.
Qed.

Lemma probe_multi_probe_end_finished w :
  snd (PrinterProbe.multi_probe_end w) <> Unfinished.
Proof.
  rewrite probe_multi_probe_end_run.
  destruct (multi_probe_pending (probe w)); [|discriminate].
  rewrite wrapper_multi_probe_end_run. cbv zeta.
  destruct (homeing (mcu_probe _) =? 1).
  - destruct (read_result 0 _) eqn:Hr; cbn [snd].
    + destruct (stow_on_each_sample _); discriminate.
    + discriminate.
    + exfalso. eapply read_result_finished, Hr.
  - destruct (stow_on_each_sample _); discriminate.
Qed.

(** The sample set [run_probe] aggregates: the sampling always comes to an
    end, and a set that reaches the aggregation has [SAMPLES] samples, no
    two of them further apart in z than the tolerance. *)
Lemma collect_samples_within_tolerance (w : world) :
  match snd (collect_samples g w) with
  | Return ps =>
      List.length ps = SAMPLES g
      /\ within_tolerance (SAMPLES_TOLERANCE g) ps
  | Raise _ => True
  | Unfinished => False
  end.
Proof.
  unfold collect_samples. unfold bind at 1, gets. unfold bind at 1.
  assert (Hbegin : exists w1,
             when (negb (multi_probe_pending (probe w)))
               PrinterProbe.multi_probe_begin w = (w1, Return tt)).
  { unfold when. destruct (negb _); [apply probe_multi_probe_begin_returns|].
    unfold ret. eauto. }
  destruct Hbegin as [w1 ->].
  unfold bind at 1, get_position, gets. unfold bind at 1.
  match goal with
  | |- context [sample_loop ?f g ?xy ?fr w1] =>
      pose proof (sample_loop_sound xy f fr w1) as Hloop;
      destruct (sample_loop f g xy fr w1) as [w2 [ps|e|]]
  end; cbn [snd positions retries List.length] in Hloop.
  - destruct Hloop as [Hlen Hok];
      [lia | lia | reflexivity | unfold passes_left, sample_budget; cbn; lia |].
    unfold bind, when.
    destruct (negb _).
    + pose proof (probe_multi_probe_end_finished w2) as Hend.
      destruct (PrinterProbe.multi_probe_end w2) as [w3 [[]|e|]]; cbn [snd] in *.
      * split; [exact Hlen | apply exceeds_false_within, Hok].
      * exact I.
      * congruence.
    + cbn. split; [exact Hlen | apply exceeds_false_within, Hok].
  - exact I.
  - apply Hloop; [lia | lia | reflexivity | unfold passes_left, sample_budget; cbn; lia].
Qed.

(** *** Where the tolerance error goes *)

Lemma check_tolerance_raises (fr : frame) (w : world) :
  exceeds (SAMPLES_TOLERANCE g) (positions fr) = true ->
  (SAMPLES_TOLERANCE_RETRIES g <= retries fr)%nat ->
  check_tolerance g fr w = (w, Return (fr, Raised tolerance_error)).
Proof.
  unfold check_tolerance, exceeds. intros Hex Hret.
  destruct (map pz (positions fr)) as [|z zs]; [discriminate|].
  rewrite Hex. apply Nat.leb_le in Hret. rewrite Hret. reflexivity.
Qed.

Lemma check_tolerance_retries (fr : frame) (w : world) :
  exceeds (SAMPLES_TOLERANCE g) (positions fr) = true ->
  (retries fr < SAMPLES_TOLERANCE_RETRIES g)%nat ->
  check_tolerance g fr w =
    (set_trace (Ev_respond_info (Text "Probe samples exceed tolerance. Retrying...")
                :: trace w) w,
     Return ({| positions := []; retries := S (retries fr) |}, Continue)).
Proof.
  unfold check_tolerance, exceeds. intros Hex Hret.
  destruct (map pz (positions fr)) as [|z zs]; [discriminate|].
  rewrite Hex. apply Nat.leb_gt in Hret. rewrite Hret. reflexivity.
Qed.

(** On the mechanical path a set that exceeds the tolerance with no retry
    left ends the probe with the tolerance error, at once. *)
Lemma mechanical_probe_raises_tolerance_error (xy : Q * Q) (fr : frame)
    (w w1 : world) (pos : pos3) :
  _probe (PROBE_SPEED g) w = (w1, Return pos) ->
  exceeds (SAMPLES_TOLERANCE g) (positions fr ++ [pos]) = true ->
  (SAMPLES_TOLERANCE_RETRIES g <= retries fr)%nat ->
  mechanical_probe g xy fr w = (w1, Raise tolerance_error).
Proof.
  intros Hp Hex Hret. unfold mechanical_probe.
  unfold bind at 1. rewrite Hp. unfold bind at 1.
  rewrite check_tolerance_raises by assumption. reflexivity.
Qed.

(** On the direct-read path the same error is raised inside the [try]
    block: the pass goes on with a mechanical probe on the set that failed,
    and ends with the error that probe raises. *)
Lemma direct_read_tolerance_error_is_swallowed (xy : Q * Q) (fuel : nat)
    (fr fr1 : frame) (w w1 : world) :
  (List.length (positions fr) < SAMPLES g)%nat ->
  direct_read g fr w = (w1, Return (fr1, Raised tolerance_error)) ->
  exceeds (SAMPLES_TOLERANCE g) (positions fr1) = true ->
  (SAMPLES_TOLERANCE_RETRIES g <= retries fr1)%nat ->
  exists w2 e,
    mechanical_probe g xy fr1
      (set_trace (Ev_respond_info (str tolerance_error) :: trace w1) w1)
      = (w2, Raise e)
    /\ sample_loop (S fuel) g xy fr w = (w2, Raise e).
Proof.
  intros Hlen Hd Hex Hret.
  destruct (mechanical_probe_exceeded xy fr1
              (set_trace (Ev_respond_info (str tolerance_error) :: trace w1) w1)
              Hex Hret) as (w2 & e & Hm).
  exists w2, e. split; [exact Hm|].
  cbn [sample_loop]. apply Nat.ltb_lt in Hlen. rewrite Hlen.
  unfold bind at 1. rewrite Hd. cbv beta iota.
  unfold bind at 1, respond_info, emit, modify. unfold bind at 1.
  rewrite Hm. reflexivity.
Qed.

End SampleAcquisition.

(** C1, at the failing input.  A BED_MESH_CALIBRATE probe of two samples
    (tolerance 0.1 mm, no retry) whose direct sensor reads give z = 4 and
    z = 3: the spread of 1 mm exceeds the tolerance and no retry is left,
    but the tolerance error raised inside the [try] block is caught by its
    own blanket handler, a mechanical probing move is made instead, and
    its failure (a homing timeout here) is what [run_probe] ends with.  The
    same spread on the mechanical path (a PROBE command) ends with the
    tolerance error. *)
Theorem C1_direct_read_swallows_tolerance_error :
  let g := two_samples "BED_MESH_CALIBRATE" in
  let w := bench [100; 200] 0 in
  snd (PrinterProbe.run_probe g w)
    = Raise (Exn command_error
               (Text ("Timeout during endstop homing" ++ PrinterProbe.HINT_TIMEOUT)))
  /\ snd (PrinterProbe.run_probe g w) <> Raise tolerance_error
  /\ In (Ev_respond_info (Text "Probe samples exceed samples_tolerance"))
        (trace (fst (PrinterProbe.run_probe g w)))
  /\ In (Ev_probing_move (mk_pos 0 0 0) 5)
        (trace (fst (PrinterProbe.run_probe g w)))
  /\ snd (PrinterProbe.run_probe (two_samples "PROBE")
            (probing_at [4; 3]%Q (bench [] 0)))
       = Raise tolerance_error.
Proof.
  cbv zeta. split; [vm_compute; reflexivity|].
  split; [vm_compute; discriminate|].
  split; [vm_compute; tauto|].
  split; [vm_compute; tauto|].
  vm_compute. reflexivity.
Qed.

(** ** Continuous scan *)

Section ContinuousScan.

Import ProbePointsHelper.


(** One pass of the scan loop. *)
Lemma scan_loop_pass (fuel : nat) (pts : list (Q * Q)) (start T est : Q)
    (k : nat) (w : world) :
  scan_loop (S fuel) pts start T est k w =
    let o := timeline (env w) (tick w) in
    match fault o with
    | Some e => (w, Raise e)
    | None =>
      if negb (special_queuing_state o) || Qle_bool est (print_time o) then
        if negb (can_pause o) then (w, Return k)
        else if sample_due (estimated_print_time o) start T k (List.length pts) then
          match nth_error pts k with
          | None => (w, Raise (Exn IndexError (Text "list index out of range")))
          | Some pt =>
              match read_result 0 (accepted_code w) with
              | Return _ =>
                  scan_loop fuel pts start T (estimated_print_time o) (S k)
                    (set_tick (S (tick w)) (recorded pt w))
              | Raise e => (read_world 0 w, Raise e)
              | Unfinished => (read_world 0 w, Unfinished)
              end
          end
        else scan_loop fuel pts start T (estimated_print_time o) k
               (set_tick (S (tick w)) w)
      else (w, Return k)
    end.
Proof.
  cbn [scan_loop]. cbv zeta. unfold bind at 1, observe.
  destruct (fault _); [reflexivity|].
  destruct (negb _ || _)%bool; [|reflexivity].
  destruct (negb (can_pause _)); [reflexivity|].
  destruct (sample_due _ _ _ _ _).
  - unfold bind at 1. unfold bind at 1, get_position, gets.
    unfold bind at 1, py_index.
    destruct (nth_error pts k) as [pt|]; [|reflexivity].
    unfold ret at 1. unfold bind at 1. rewrite BD_Sensor_Read_run.
    destruct (read_result 0 _) eqn:Hr; try reflexivity.
    apply read_result_value in Hr. subst.
    unfold recorded, read_world. open_world w. destruct whelper.
    run_M. unfold store_results, pause; run_M. reflexivity.
  - unfold bind at 1, ret at 1. unfold bind at 1, pause, modify. reflexivity.
Qed.






Lemma lined_up_frame a b w :
  env (lined_up a b w) = env w /\ tick (lined_up a b w) = tick w
  /\ helper (lined_up a b w) = helper w.
Proof.
  unfold lined_up, manual_move, wait_moves. destruct w. run_M. repeat split.
Qed.

(** [fast_probe_oneline] is that loop, run from column 0 on the points that
    share the y of the first point without a result, with the time span
    [T = print_time - est_time] read when the move to the end of the line
    has been queued.  A line of fewer than two points is refused. *)
Lemma fast_probe_oneline_run (fuel : nat) (w : world)
    (start_point end_point : Q * Q) :
  let pts := points_on_line start_point (probe_points (helper w)) in
  let o := timeline (env w) (tick w) in
  let w0 := lined_up (offset_point (helper w) start_point)
              (offset_point (helper w) end_point) w in
  nth_error (probe_points (helper w)) (List.length (results (helper w)))
    = Some start_point ->
  nth_error pts (List.length pts - 1) = Some end_point ->
  fast_probe_oneline fuel w =
    if (List.length pts <=? 1)%nat then
      (w, Raise (Exn config_error (Msg_points_on_x (List.length pts))))
    else
      match fault o with
      | Some e => (w0, Raise e)
      | None =>
          (fst (scan_loop fuel pts (estimated_print_time o)
                  (print_time o - estimated_print_time o)
                  (estimated_print_time o) 0 w0),
           match snd (scan_loop fuel pts (estimated_print_time o)
                        (print_time o - estimated_print_time o)
                        (estimated_print_time o) 0 w0) with
           | Return _ => Return tt
           | Raise e => Raise e
           | Unfinished => Unfinished
           end)
      end.
Proof.
  cbv zeta. intros Hstart Hend.
  destruct (lined_up_frame (offset_point (helper w) start_point)
              (offset_point (helper w) end_point) w) as (He & Ht & _).
  unfold fast_probe_oneline.
  unfold bind at 1, gets. unfold bind at 1, py_index. rewrite Hstart.
  unfold ret at 1.
  destruct (_ <=? 1)%nat; [reflexivity|].
  rewrite Hend. unfold bind at 1, ret at 1.
  change (bind (manual_move ?x1 ?y1 ?z1 ?v1)
            (fun _ => bind wait_moves
               (fun _ => bind (manual_move ?x2 ?y2 ?z2 ?v2) ?k)) w)
    with (bind (fun w' => (lined_up (offset_point (helper w) start_point)
                             (offset_point (helper w) end_point) w', Return tt))
               k w).
  unfold bind at 1. unfold bind at 1, observe. rewrite He, Ht.
  destruct (fault _); [reflexivity|].
  unfold bind, ret.
  destruct (scan_loop _ _ _ _ _ _ _) as [w' [x|ex|]]; reflexivity.
Qed.

End ContinuousScan.


(** ** Fallback from continuous scanning *)

Section Fallback.

Import ProbePointsHelper.

(** The continuous-scan attempt in full. *)
Lemma try_fast_probe_run (fuel : nat) (g : gcmd) (w : world) :
  try_fast_probe fuel g w =
    if String.eqb (get_command g) "BED_MESH_CALIBRATE" then
      match no_stop_probe (mcu_probe w) with
      | None => (w, Return false)
      | Some _ =>
          match fast_probe fuel w with
          | (w1, Return _) =>
              match PrinterProbe.multi_probe_end w1 with
              | (w2, Return _) => (w2, Return true)
              | (w2, Raise e) =>
                  if exn_kind_eqb (kind e) AttributeError then (w2, Return false)
                  else (w2, Raise e)
              | (w2, Unfinished) => (w2, Unfinished)
              end
          | (w1, Raise e) =>
              if exn_kind_eqb (kind e) AttributeError then (w1, Return false)
              else (w1, Raise e)
          | (w1, Unfinished) => (w1, Unfinished)
          end
      end
    else (w, Return false).
Proof.
  unfold try_fast_probe. destruct (String.eqb _ _); [|reflexivity].
  unfold try_except. unfold bind at 1, gets.
  destruct (no_stop_probe (mcu_probe w)); [|reflexivity].
  unfold bind at 1.
  destruct (fast_probe fuel w) as [w1 [r|e|]]; try reflexivity.
  unfold bind, ret.
  destruct (PrinterProbe.multi_probe_end w1) as [w2 [[]|e|]]; reflexivity.
Qed.

(** [start_probe] from the point where the method is chosen. *)
Lemma start_probe_run (fuel : nat) (g : gcmd) (w : world) :
  METHOD g = "automatic"%string ->
  start_probe fuel g w =
    match prepared g w with
    | (w0, Return _) =>
        match try_fast_probe fuel g w0 with
        | (w1, Return true) => (w1, Return tt)
        | (w1, Return false) => per_point fuel g w1
        | (w1, Raise e) => (w1, Raise e)
        | (w1, Unfinished) => (w1, Unfinished)
        end
    | (w0, Raise e) => (w0, Raise e)
    | (w0, Unfinished) => (w0, Unfinished)
    end.
Proof.
  intros Hm. unfold start_probe, prepared. rewrite Hm.
  change (negb ("automatic" =? "automatic")%string) with false. cbv iota.
  unfold bind at 1 2 6 7, store_results, modify.
  unfold bind at 1.
  destruct (automatic_setup g _) as [w0 [[]|e|]]; try reflexivity.
  unfold bind at 1.
  destruct (try_fast_probe fuel g w0) as [w1 [[|]|e|]]; reflexivity.
Qed.




End Fallback.

(** * Further properties of the module *)

(** ** Session teardown on a command error *)

Lemma probe_multi_probe_end_clears_pending (w : world) :
  multi_probe_pending (probe (fst (PrinterProbe.multi_probe_end w))) = false.
Proof.
  rewrite probe_multi_probe_end_run.
  destruct (multi_probe_pending (probe w)) eqn:Hp; [|exact Hp].
  rewrite wrapper_multi_probe_end_probe.
  destruct w as [? ? ? ? ? ? pr ? ?]; destruct pr; reflexivity.
Qed.

(** X1.  [_handle_command_error] never lets an error of the teardown out:
    it always returns, and whatever the sensor answered (even when the
    wrapper's [multi_probe_end] failed on an out-of-range read) no session
    is pending afterwards. *)
Theorem X1_command_error_always_clears_pending (w : world) :
  snd (PrinterProbe._handle_command_error w) = Return tt
  /\ multi_probe_pending
       (probe (fst (PrinterProbe._handle_command_error w))) = false.
Proof.
  unfold PrinterProbe._handle_command_error, try_except.
  pose proof (probe_multi_probe_end_clears_pending w) as Hp.
  pose proof (probe_multi_probe_end_finished w) as Hf.
  destruct (PrinterProbe.multi_probe_end w) as [w1 [[]|e|]]; cbn [fst snd] in *.
  - split; [reflexivity | exact Hp].
  - split; [reflexivity | exact Hp].
  - congruence.
Qed.

(** ** Version read and raw-value dump *)





(** The dump loop stops within the samples that are missing to forty,
    echoes every raw value it reads, and never closes the reading mode
    itself. *)
Lemma raw_dump_loop_bounded (todo : nat) :
  forall (ncount1 : Z) (w : world),
    ncount1 + Z.of_nat todo = 40 -> (0 < todo)%nat ->
    snd (raw_dump_loop todo ncount1 w) <> Unfinished
    /\ (queries w < queries (fst (raw_dump_loop todo ncount1 w))
        <= queries w + todo)%nat
    /\ echoes (trace (fst (raw_dump_loop todo ncount1 w)))
       = (echoes (trace w)
          + (queries (fst (raw_dump_loop todo ncount1 w)) - queries w))%nat
    /\ finishes (trace (fst (raw_dump_loop todo ncount1 w))) = finishes (trace w).
Proof.
  induction todo as [|todo IH]; intros n w Hn Ht; [lia|].
  rewrite raw_dump_loop_step. cbv zeta.
  destruct (dump_verdict n _).
  1-3: destruct w as [e q p k th b pr h t]; unfold echoes, finishes; cbn -[Nat.sub Nat.add];
    repeat split; try discriminate; lia.
  destruct (Z.leb_spec 40 (n + 1)) as [Hlast|Hmore].
  - destruct w as [e q p k th b pr h t]; unfold echoes, finishes; cbn -[Nat.sub Nat.add].
    repeat split; try discriminate; lia.
  - match goal with
    | |- context [raw_dump_loop todo (n + 1) ?w2] =>
        destruct (IH (n + 1) w2) as (Hfin & Hq & Hecho & Hclose); [lia | lia |];
          destruct (raw_dump_loop todo (n + 1) w2) as [w' r]
    end.
    destruct w as [e q p k th b pr h t]; unfold echoes, finishes in *;
      cbn -[Nat.sub Nat.add] in *.
    repeat split; try assumption; lia.
Qed.

(** X3.  The raw-value dump (M102 S-5) always comes to an end, after at
    least one and at most forty round trips; it echoes every raw value it
    read.  When it returns it closes the reading mode with the "1018"
    command, sent twice; when it ends with the exception of the fatal
    verdict, "1018" is not sent at all. *)
Theorem X3_raw_dump_is_bounded_and_echoed (w : world) :
  let '(w', r) := process_M102 (Some (-5)) w in
  r <> Unfinished
  /\ (queries w < queries w' <= queries w + 40)%nat
  /\ echoes (trace w') = (echoes (trace w) + (queries w' - queries w))%nat
  /\ finishes (trace w')
     = (finishes (trace w) + match r with Return _ => 2 | _ => 0 end)%nat.
Proof.
  unfold process_M102.
  change ((-5 =? -6) || (-5 =? -7))%bool with false.
  change (-5 =? -5) with true. cbv iota.
  unfold bind at 1 2, I2C_BD_send, emit, modify. cbv beta iota.
  unfold bind at 1.
  match goal with
  | |- context [raw_dump_loop 40 0 ?w0] =>
      destruct (raw_dump_loop_bounded 40 0 w0) as (Hfin & Hq & Hecho & Hclose);
        [reflexivity | lia |];
        destruct (raw_dump_loop 40 0 w0) as [w1 [[]|e|]]
  end; cbn [fst snd] in *; [| |congruence].
  - unfold bind, modify. cbv beta iota.
    destruct w as [e q p k th b pr h t].
    destruct w1 as [e1 q1 p1 k1 th1 b1 pr1 h1 t1].
    unfold echoes, finishes in *. cbn -[Nat.sub Nat.add] in *.
    repeat split; try discriminate; lia.
  - destruct w as [e0 q p k th b pr h t].
    destruct w1 as [e1 q1 p1 k1 th1 b1 pr1 h1 t1].
    unfold echoes, finishes in *. cbn -[Nat.sub Nat.add] in *.
    repeat split; try discriminate; lia.
Qed.

(** ** Homing correction *)

(** X4.  After [home_start], the wrapper's [multi_probe_end] takes one
    reading.  When the accepted raw code is at most 380 (3.8 mm) the Z axis
    is set to that reading by exactly one G92 and the homing flag is
    cleared.  Otherwise the call raises, no G92 is issued, and the homing
    flag and the session state stay as they were, so the correction is
    still due at the next [multi_probe_end].  Without a [home_start] before
    it, [multi_probe_end] reads nothing and corrects nothing. *)
Theorem X4_homing_correction_needs_a_reading_in_range (w : world) :
  (let a := accepted_code w in
   let '(w', r) := (home_start ;; BDsensorEndstopWrapper.multi_probe_end) w in
   if a <=? 380 then
     r = Return tt
     /\ corrections (trace w') = S (corrections (trace w))
     /\ In (Ev_run_script (Msg_G92 (calibrated a))) (trace w')
     /\ homeing (mcu_probe w') = 0
   else
     (exists e, r = Raise e)
     /\ corrections (trace w') = corrections (trace w)
     /\ homeing (mcu_probe w') = 1
     /\ multi (mcu_probe w') = multi (mcu_probe w))
  /\ (homeing (mcu_probe w) <> 1 ->
      let '(w', r) := BDsensorEndstopWrapper.multi_probe_end w in
      r = Return tt
      /\ queries w' = queries w
      /\ corrections (trace w') = corrections (trace w)
      /\ homeing (mcu_probe w') = 0).
Proof.
  split.
  - cbv zeta. unfold bind at 1, home_start, store_homeing, modify.
    rewrite wrapper_multi_probe_end_run. cbv zeta.
    assert (Ha : forall t m,
               accepted_code (set_trace t (set_mcu_probe m w)) = accepted_code w).
    { intros t m. destruct w; reflexivity. }
    assert (Hh : (homeing (mcu_probe
                    (set_mcu_probe (set_homeing 1 (mcu_probe w)) w)) =? 1) = true).
    { open_world w. reflexivity. }
    rewrite Hh, Ha, read_result_0.
    destruct (Z.leb_spec (accepted_code w) 380) as [Hin|Hout].
    + destruct (Z.leb_spec 1024 (accepted_code w)); [lia|].
      destruct (Z.ltb_spec 380 (accepted_code w)); [lia|].
      unfold read_world, read_events, corrections.
      rewrite Ha, read_result_0.
      destruct (Z.leb_spec 1024 (accepted_code w)); [lia|].
      destruct (Z.ltb_spec 380 (accepted_code w)); [lia|].
      open_world w. destruct wstow; cbn; destruct (1024 <=? wenv.(sensor) wqueries);
        cbn; repeat split; auto.
    + unfold read_world, read_events, corrections.
      rewrite Ha, read_result_0.
      destruct (1024 <=? accepted_code w).
      * open_world w. destruct (1024 <=? wenv.(sensor) wqueries);
          cbn; repeat split; eauto.
      * destruct (Z.ltb_spec 380 (accepted_code w)); [|lia].
        open_world w. destruct (1024 <=? wenv.(sensor) wqueries);
          cbn; repeat split; eauto.
  - intros Hh. rewrite wrapper_multi_probe_end_run. cbv zeta.
    destruct (Z.eqb_spec (homeing (mcu_probe w)) 1) as [|_]; [contradiction|].
    unfold corrections. open_world w. destruct wstow; cbn; repeat split.
Qed.

(** ** Properties kept along a computation *)

Lemma maintains_ret {A} Inv (a : A) : maintains Inv (ret a).
Proof. intros w H. exact H. Qed.

Lemma maintains_raise {A} Inv k m : maintains Inv (@raise A k m).
Proof. intros w H. exact H. Qed.

Lemma maintains_unfinished {A} Inv : maintains Inv (@unfinished A).
Proof. intros w H. exact H. Qed.

Lemma maintains_gets {A} Inv (f : world -> A) : maintains Inv (gets f).
Proof. intros w H. exact H. Qed.

Lemma maintains_modify Inv (f : world -> world) :
  (forall w, Inv w -> Inv (f w)) -> maintains Inv (modify f).
Proof. intros Hf w H. apply Hf, H. Qed.

Lemma maintains_bind {A B} Inv (c : M A) (k : A -> M B) :
  maintains Inv c -> (forall a, maintains Inv (k a)) -> maintains Inv (bind c k).
Proof.
  intros Hc Hk w H. unfold bind. specialize (Hc w H).
  destruct (c w) as [w1 [a| |]]; cbn [fst] in *; [apply Hk, Hc | exact Hc..].
Qed.

Lemma maintains_try_except {A} Inv (body : M A) handled (handler : exn -> M A) :
  maintains Inv body -> (forall e, maintains Inv (handler e)) ->
  maintains Inv (try_except body handled handler).
Proof.
  intros Hb Hh w H. unfold try_except. specialize (Hb w H).
  destruct (body w) as [w1 [a|e|]]; cbn [fst] in *; try exact Hb.
  destruct (handled e); [apply Hh, Hb | exact Hb].
Qed.

Lemma maintains_reify {A} Inv (c : M A) :
  maintains Inv c -> maintains Inv (PrinterProbe.reify c).
Proof.
  intros Hc w H. unfold PrinterProbe.reify. specialize (Hc w H).
  destruct (c w) as [w1 [a|e|]]; exact Hc.
Qed.

Lemma maintains_observe Inv : maintains Inv observe.
Proof. intros w H. unfold observe. destruct (fault _); exact H. Qed.

Lemma maintains_py_index {A} Inv (l : list A) i : maintains Inv (py_index l i).
Proof. intros w H. unfold py_index. destruct (nth_error l i); exact H. Qed.

Create HintDb frame.
#[local] Hint Resolve maintains_ret maintains_raise maintains_unfinished
  maintains_gets maintains_observe maintains_py_index : frame.

(** Walks down a computation, one bind or branch at a time. *)
Ltac frame :=
  repeat first
    [ assumption
    | solve [auto 1 with frame]
    | progress (unfold when, respond_info, respond_raw, I2C_BD_send, Z_Move_Live,
                wait_moves, sleep, dwell, raise_probe, lower_probe, get_position,
                PrinterProbe._move)
    | match goal with
      | |- maintains _ (bind _ _) => apply maintains_bind; [|intros]
      | |- maintains _ (try_except _ _ _) => apply maintains_try_except; [|intros]
      | |- maintains _ (PrinterProbe.reify _) => apply maintains_reify
      | |- maintains _ (if ?c then _ else _) => destruct c
      | |- maintains _ (match ?x with inl _ => _ | inr _ => _ end) => destruct x
      | |- maintains _ (match ?m with OFF => _ | FIRST => _ | ON => _ end) =>
          destruct m
      | |- maintains _ (let '(_, _) := ?r in _) => destruct r
      | |- maintains _ (match ?l with PrinterProbe.Continue => _ | _ => _ end) =>
          destruct l
      end ].

Section Frame.

Variable Inv : world -> Prop.

(** What the property must not depend on. *)
Hypothesis Inv_event :
  forall e w, not_finalize e -> Inv w -> Inv (set_trace (e :: trace w) w).
Hypothesis Inv_queries : forall n w, Inv w -> Inv (set_queries n w).
Hypothesis Inv_probes : forall n w, Inv w -> Inv (set_probes n w).
Hypothesis Inv_tick : forall n w, Inv w -> Inv (set_tick n w).
Hypothesis Inv_toolhead : forall x w, Inv w -> Inv (set_toolhead x w).
Hypothesis Inv_mcu_probe : forall x w, Inv w -> Inv (set_mcu_probe x w).
Hypothesis Inv_probe : forall x w, Inv w -> Inv (set_probe x w).

Lemma maintains_emit e : not_finalize e -> maintains Inv (emit e).
Proof. intros He. apply maintains_modify. intros w. apply Inv_event, He. Qed.

Lemma maintains_I2C_BD_receive d : maintains Inv (I2C_BD_receive d).
Proof.
  intros w H. unfold I2C_BD_receive. cbn [fst].
  apply (Inv_queries (S (queries w))) in H.
  apply (Inv_event (Ev_I2C_BD_receive d (sensor (env w) (queries w)))) in H;
    [|exact I].
  destruct w; exact H.
Qed.

Lemma maintains_store_bd_value v : maintains Inv (store_bd_value v).
Proof. apply maintains_modify. intros w. apply Inv_mcu_probe. Qed.

Lemma maintains_store_multi m : maintains Inv (store_multi m).
Proof. apply maintains_modify. intros w. apply Inv_mcu_probe. Qed.

Lemma maintains_store_homeing h : maintains Inv (store_homeing h).
Proof. apply maintains_modify. intros w. apply Inv_mcu_probe. Qed.

Lemma maintains_pause : maintains Inv pause.
Proof. apply maintains_modify. intros w. apply Inv_tick. Qed.

Lemma maintains_manual_move x y z v : maintains Inv (manual_move x y z v).
Proof.
  unfold manual_move. apply maintains_bind.
  - apply maintains_emit. exact I.
  - intros _. apply maintains_modify. intros w. apply Inv_toolhead.
Qed.

#[local] Hint Resolve maintains_I2C_BD_receive maintains_store_bd_value
  maintains_store_multi maintains_store_homeing maintains_pause
  maintains_manual_move : frame.
#[local] Hint Extern 1 (maintains _ (emit _)) =>
  (apply maintains_emit; exact I) : frame.

Lemma maintains_BD_Sensor_Read fore_r : maintains Inv (BD_Sensor_Read fore_r).
Proof. unfold BD_Sensor_Read. frame. Qed.

#[local] Hint Resolve maintains_BD_Sensor_Read : frame.

Lemma maintains_wrapper_multi_probe_begin :
  maintains Inv BDsensorEndstopWrapper.multi_probe_begin.
Proof. unfold BDsensorEndstopWrapper.multi_probe_begin. frame. Qed.

Lemma maintains_wrapper_multi_probe_end :
  maintains Inv BDsensorEndstopWrapper.multi_probe_end.
Proof. unfold BDsensorEndstopWrapper.multi_probe_end. frame. Qed.

Lemma maintains_probing_move_call target v :
  maintains Inv (PrinterProbe.probing_move_call target v).
Proof.
  unfold PrinterProbe.probing_move_call. frame.
  - apply maintains_modify. intros w. apply Inv_probes.
  - apply maintains_modify. intros w. apply Inv_toolhead.
Qed.

#[local] Hint Resolve maintains_wrapper_multi_probe_begin
  maintains_wrapper_multi_probe_end maintains_probing_move_call : frame.

Lemma maintains__probe v : maintains Inv (PrinterProbe._probe v).
Proof. unfold PrinterProbe._probe. frame. Qed.

Lemma maintains_check_tolerance g fr : maintains Inv (PrinterProbe.check_tolerance g fr).
Proof.
  unfold PrinterProbe.check_tolerance.
  destruct (map pz _); frame.
Qed.

#[local] Hint Resolve maintains__probe maintains_check_tolerance : frame.

Lemma maintains_direct_read g fr : maintains Inv (PrinterProbe.direct_read g fr).
Proof. unfold PrinterProbe.direct_read. frame. Qed.

Lemma maintains_mechanical_probe g xy fr :
  maintains Inv (PrinterProbe.mechanical_probe g xy fr).
Proof.
  unfold PrinterProbe.mechanical_probe. frame.
  intros w H. exact H.
Qed.

#[local] Hint Resolve maintains_direct_read maintains_mechanical_probe : frame.

Lemma maintains_sample_loop g xy fuel :
  forall fr, maintains Inv (PrinterProbe.sample_loop fuel g xy fr).
Proof.
  induction fuel as [|fuel IH]; intros fr; cbn [PrinterProbe.sample_loop];
    frame.
Qed.

Lemma maintains_store_pending b : maintains Inv (PrinterProbe.store_pending b).
Proof. apply maintains_modify. intros w. apply Inv_probe. Qed.

#[local] Hint Resolve maintains_sample_loop maintains_store_pending : frame.

Lemma maintains_probe_multi_probe_begin :
  maintains Inv PrinterProbe.multi_probe_begin.
Proof. unfold PrinterProbe.multi_probe_begin. frame. Qed.

Lemma maintains_probe_multi_probe_end :
  maintains Inv PrinterProbe.multi_probe_end.
Proof. unfold PrinterProbe.multi_probe_end. frame. Qed.

#[local] Hint Resolve maintains_probe_multi_probe_begin
  maintains_probe_multi_probe_end : frame.

Lemma maintains__calc_mean ps : maintains Inv (PrinterProbe._calc_mean ps).
Proof. unfold PrinterProbe._calc_mean. destruct ps; frame. Qed.

Lemma maintains__calc_median ps : maintains Inv (PrinterProbe._calc_median ps).
Proof.
  pose proof maintains__calc_mean.
  unfold PrinterProbe._calc_median. frame.
Qed.

#[local] Hint Resolve maintains__calc_mean maintains__calc_median : frame.

Lemma maintains_collect_samples g : maintains Inv (PrinterProbe.collect_samples g).
Proof. unfold PrinterProbe.collect_samples. frame. Qed.

#[local] Hint Resolve maintains_collect_samples : frame.

Lemma maintains_run_probe g : maintains Inv (PrinterProbe.run_probe g).
Proof. unfold PrinterProbe.run_probe. frame. Qed.

End Frame.

(** ** Sessions and probing moves of [run_probe] *)

(** Discharges the side conditions of the frame lemmas for a property that
    reads one field of the world. *)
Ltac field_kept :=
  intros;
  repeat match goal with x : world |- _ => destruct x end;
  cbn in *; assumption.

Lemma sample_loop_probe g xy fuel fr w :
  probe (fst (PrinterProbe.sample_loop fuel g xy fr w)) = probe w.
Proof.
  apply (maintains_sample_loop (fun w' => probe w' = probe w));
    solve [field_kept | reflexivity].
Qed.

(** The sampling of [run_probe] hands the [PrinterProbe] state back as it
    found it. *)
Lemma collect_samples_probe g w w1 ps :
  PrinterProbe.collect_samples g w = (w1, Return ps) -> probe w1 = probe w.
Proof.
  unfold PrinterProbe.collect_samples. unfold bind at 1, gets.
  destruct (multi_probe_pending (probe w)) eqn:Hp; cbn [negb when].
  - unfold bind at 1, ret at 1. unfold bind at 1, get_position, gets.
    unfold bind at 1.
    match goal with
    | |- context [PrinterProbe.sample_loop ?f g ?xy ?fr w] =>
        pose proof (sample_loop_probe g xy f fr w) as Hloop;
        destruct (PrinterProbe.sample_loop f g xy fr w) as [w2 [ps'| |]]
    end; try discriminate.
    unfold bind, ret. intros H. injection H as <- _. exact Hloop.
  - unfold bind at 1.
    destruct (probe_multi_probe_begin_returns w) as [w0 Hb]. rewrite Hb.
    assert (Hw0 : probe w0 = set_multi_probe_pending true (probe w)).
    { revert Hb. unfold PrinterProbe.multi_probe_begin, PrinterProbe.store_pending.
      unfold bind. rewrite wrapper_multi_probe_begin_run. unfold modify.
      intros H. injection H as <-.
      open_world w. destruct wstow; reflexivity. }
    unfold bind at 1, get_position, gets. unfold bind at 1.
    match goal with
    | |- context [PrinterProbe.sample_loop ?f g ?xy ?fr w0] =>
        pose proof (sample_loop_probe g xy f fr w0) as Hloop;
        destruct (PrinterProbe.sample_loop f g xy fr w0) as [w2 [ps'| |]]
    end; try discriminate.
    cbn [fst] in Hloop. unfold bind at 1.
    rewrite probe_multi_probe_end_run.
    rewrite Hloop, Hw0.
    destruct (probe w) as [pend zp xo yo zo] eqn:Hpr. cbn in Hp. subst pend.
    cbn [set_multi_probe_pending multi_probe_pending].
    match goal with
    | |- context [BDsensorEndstopWrapper.multi_probe_end ?w3] =>
        pose proof (wrapper_multi_probe_end_probe w3) as Hend;
        destruct (BDsensorEndstopWrapper.multi_probe_end w3) as [w4 [[]| |]]
    end; try discriminate.
    unfold ret. intros H. injection H as <- _.
    cbn [fst] in Hend. rewrite Hend. destruct w2; reflexivity.
Qed.

Lemma _calc_mean_world ps w : fst (PrinterProbe._calc_mean ps w) = w.
Proof. unfold PrinterProbe._calc_mean. destruct ps; reflexivity. Qed.

Lemma _calc_median_world ps w : fst (PrinterProbe._calc_median ps w) = w.
Proof.
  unfold PrinterProbe._calc_median. destruct (_ =? 1).
  - unfold py_index. destruct (nth_error _ _); reflexivity.
  - apply _calc_mean_world.
Qed.

(** [run_probe] is the sampling followed by an aggregation that leaves the
    world alone. *)
Lemma run_probe_returns g w w' pos :
  PrinterProbe.run_probe g w = (w', Return pos) ->
  exists ps,
    PrinterProbe.collect_samples g w = (w', Return ps)
    /\ (if String.eqb (SAMPLES_RESULT g) "median"
        then PrinterProbe._calc_median ps w' else PrinterProbe._calc_mean ps w')
       = (w', Return pos).
Proof.
  unfold PrinterProbe.run_probe. unfold bind.
  destruct (PrinterProbe.collect_samples g w) as [w1 [ps| |]]; try discriminate.
  intros H. exists ps.
  assert (Hw : w' = w1).
  { destruct (String.eqb _ _).
    - rewrite <- (_calc_median_world ps w1), H. reflexivity.
    - rewrite <- (_calc_mean_world ps w1), H. reflexivity. }
  subst w'. split; [reflexivity|]. destruct (String.eqb _ _); exact H.
Qed.

(** X5.  A [run_probe] that returns hands the [PrinterProbe] state back as
    it found it: called with no session pending it has closed the session
    it opened, called inside a pending session it has left that session
    pending, and the probe offsets and the probing depth are untouched. *)
Theorem X5_run_probe_hands_back_the_session (g : gcmd) (w w' : world)
    (pos : pos3) :
  PrinterProbe.run_probe g w = (w', Return pos) ->
  probe w' = probe w.
Proof.
  intros H. apply run_probe_returns in H. destruct H as (ps & Hc & _).
  eapply collect_samples_probe, Hc.
Qed.

(** X5, witness.  A PROBE command of two samples on the bench printer, the
    probing moves ending at z = 1 both times. *)
Lemma X5_run_probe_hands_back_the_session_witness :
  exists w' pos,
    PrinterProbe.run_probe (two_samples "PROBE") (probing_at [1; 1]%Q (bench [] 0))
      = (w', Return pos)
    /\ probe w' = probe (probing_at [1; 1]%Q (bench [] 0)).
Proof.
  eexists. eexists.
  assert (Hrun : PrinterProbe.run_probe (two_samples "PROBE")
                   (probing_at [1; 1]%Q (bench [] 0))
                 = (fst (PrinterProbe.run_probe (two_samples "PROBE")
                           (probing_at [1; 1]%Q (bench [] 0))),
                    Return (match snd (PrinterProbe.run_probe (two_samples "PROBE")
                                         (probing_at [1; 1]%Q (bench [] 0))) with
                            | Return p => p
                            | _ => mk_pos 0 0 0
                            end)))
    by (vm_compute; reflexivity).
  split; [exact Hrun|].
  exact (X5_run_probe_hands_back_the_session _ _ _ _ Hrun).
Defined.

(** *** Probing moves *)

Lemma _probe_probes v w :
  probing_moves w (fst (PrinterProbe._probe v w)) 1.
Proof.
  unfold probing_moves, PrinterProbe._probe, try_except, PrinterProbe.probing_move_call,
    get_position.
  destruct w as [e q p k [pos homed] b pr h t].
  run_M. destruct homed; cbn -[Nat.add]; [|lia].
  destruct (probing_move e p) as [epos|reason]; cbn -[Nat.add]; lia.
Qed.

Lemma direct_read_probes g fr w :
  probes (fst (PrinterProbe.direct_read g fr w)) = probes w.
Proof.
  apply (maintains_direct_read (fun w' => probes w' = probes w));
    solve [field_kept | reflexivity].
Qed.

Lemma check_tolerance_probes g fr w :
  probes (fst (PrinterProbe.check_tolerance g fr w)) = probes w.
Proof.
  apply (maintains_check_tolerance (fun w' => probes w' = probes w));
    solve [field_kept | reflexivity].
Qed.

Lemma manual_move_probes x y z v w :
  probes (fst (manual_move x y z v w)) = probes w.
Proof. destruct w. reflexivity. Qed.

(** A mechanical probe is one probing move at most. *)
Lemma mechanical_probe_probes g xy fr w :
  probing_moves w (fst (PrinterProbe.mechanical_probe g xy fr w)) 1.
Proof.
  unfold PrinterProbe.mechanical_probe. unfold bind at 1.
  pose proof (_probe_probes (PROBE_SPEED g) w) as Hp.
  unfold probing_moves in Hp.
  destruct (PrinterProbe._probe (PROBE_SPEED g) w) as [w1 [pos|e|]];
    cbn [fst] in *; try exact Hp.
  unfold bind at 1.
  match goal with
  | |- context [PrinterProbe.check_tolerance g ?f w1] =>
      pose proof (check_tolerance_probes g f w1) as Hc;
      destruct (PrinterProbe.check_tolerance g f w1) as [w2 [[fr2 fl]|e|]]
  end; cbn [fst] in *; try (unfold probing_moves; lia).
  destruct fl; cbn [fst]; try (unfold probing_moves; lia);
    unfold bind, ret, PrinterProbe._move;
    (destruct (_ <? _)%nat;
     [match goal with
      | |- context [manual_move ?x ?y ?z ?v w2] =>
          pose proof (manual_move_probes x y z v w2) as Hm;
          destruct (manual_move x y z v w2) as [w3 [[]|e|]]
      end; cbn [fst] in *; unfold probing_moves; lia
     | cbn [fst]; unfold probing_moves; lia]).
Qed.

(** Every pass of the sampling loop is one probing move at most. *)
Lemma sample_loop_probes g xy fuel :
  forall fr w,
    probing_moves w (fst (PrinterProbe.sample_loop fuel g xy fr w)) fuel.
Proof.
  induction fuel as [|fuel IH]; intros fr w; cbn [PrinterProbe.sample_loop];
    destruct (_ <? _)%nat;
    try (unfold probing_moves; cbn [fst unfinished ret]; lia).
  unfold bind at 1.
  pose proof (direct_read_probes g fr w) as Hd.
  destruct (PrinterProbe.direct_read g fr w) as [w1 [[fr1 fl]|e|]];
    cbn [fst] in *; try (unfold probing_moves; lia).
  destruct fl.
  - specialize (IH fr1 w1). unfold probing_moves in *. lia.
  - unfold bind at 1, ret at 1. unfold bind at 1.
    pose proof (mechanical_probe_probes g xy fr1 w1) as Hm.
    destruct (PrinterProbe.mechanical_probe g xy fr1 w1) as [w2 [fr2|e'|]];
      cbn [fst] in *; try (unfold probing_moves in *; lia).
    specialize (IH fr2 w2). unfold probing_moves in *. lia.
  - unfold bind at 1, respond_info, emit, modify. unfold bind at 1.
    match goal with
    | |- context [PrinterProbe.mechanical_probe g xy fr1 ?w1'] =>
        pose proof (mechanical_probe_probes g xy fr1 w1') as Hm;
        assert (Hw1 : probes w1' = probes w1) by (destruct w1; reflexivity);
        destruct (PrinterProbe.mechanical_probe g xy fr1 w1') as [w2 [fr2|e'|]]
    end; cbn [fst] in *; try (unfold probing_moves in *; lia).
    specialize (IH fr2 w2). unfold probing_moves in *. lia.
Qed.

Lemma probe_multi_probe_begin_probes w :
  probes (fst (PrinterProbe.multi_probe_begin w)) = probes w.
Proof.
  apply (maintains_probe_multi_probe_begin (fun w' => probes w' = probes w));
    solve [field_kept | reflexivity].
Qed.

Lemma probe_multi_probe_end_probes w :
  probes (fst (PrinterProbe.multi_probe_end w)) = probes w.
Proof.
  apply (maintains_probe_multi_probe_end (fun w' => probes w' = probes w));
    solve [field_kept | reflexivity].
Qed.

Lemma collect_samples_probes g w :
  probing_moves w (fst (PrinterProbe.collect_samples g w))
    (PrinterProbe.sample_budget g).
Proof.
  unfold PrinterProbe.collect_samples. unfold bind at 1, gets.
  unfold bind at 1.
  assert (Hb : exists w0,
             when (negb (multi_probe_pending (probe w)))
               PrinterProbe.multi_probe_begin w = (w0, Return tt)
             /\ probes w0 = probes w).
  { unfold when. destruct (negb _).
    - destruct (probe_multi_probe_begin_returns w) as [w0 Hw0].
      exists w0. split; [exact Hw0|].
      rewrite <- (probe_multi_probe_begin_probes w), Hw0. reflexivity.
    - exists w. split; reflexivity. }
  destruct Hb as (w0 & -> & Hw0).
  unfold bind at 1, get_position, gets. unfold bind at 1.
  match goal with
  | |- context [PrinterProbe.sample_loop ?f g ?xy ?fr w0] =>
      pose proof (sample_loop_probes g xy f fr w0) as Hloop;
      destruct (PrinterProbe.sample_loop f g xy fr w0) as [w2 [ps| |]]
  end; cbn [fst] in *; try (unfold probing_moves in *; lia).
  unfold bind, when.
  destruct (negb _).
  - pose proof (probe_multi_probe_end_probes w2) as He.
    destruct (PrinterProbe.multi_probe_end w2) as [w3 [[]| |]];
      cbn [fst ret] in *; unfold probing_moves in *; lia.
  - cbn [fst ret]. unfold probing_moves in *. lia.
Qed.

Lemma _calc_mean_finished ps w : snd (PrinterProbe._calc_mean ps w) <> Unfinished.
Proof. unfold PrinterProbe._calc_mean. destruct ps; discriminate. Qed.

Lemma _calc_median_finished ps w :
  snd (PrinterProbe._calc_median ps w) <> Unfinished.
Proof.
  unfold PrinterProbe._calc_median. destruct (_ =? 1).
  - unfold py_index. destruct (nth_error _ _); discriminate.
  - apply _calc_mean_finished.
Qed.

(** X6.  [run_probe] always comes to an end, and it makes at most
    [(SAMPLES_TOLERANCE_RETRIES + 1) * SAMPLES] probing moves: every pass of
    its loop either adds a sample or spends a retry. *)
Theorem X6_run_probe_ends_within_its_probing_budget (g : gcmd) (w : world) :
  snd (PrinterProbe.run_probe g w) <> Unfinished
  /\ (probes w <= probes (fst (PrinterProbe.run_probe g w))
      <= probes w + (SAMPLES_TOLERANCE_RETRIES g + 1) * SAMPLES g)%nat.
Proof.
  unfold PrinterProbe.run_probe, bind.
  pose proof (collect_samples_within_tolerance g w) as Hfin.
  pose proof (collect_samples_probes g w) as Hp.
  unfold probing_moves, PrinterProbe.sample_budget in Hp.
  replace (S (SAMPLES_TOLERANCE_RETRIES g))
    with (SAMPLES_TOLERANCE_RETRIES g + 1)%nat in Hp by lia.
  destruct (PrinterProbe.collect_samples g w) as [w1 [ps|e|]];
    cbn [fst snd] in *.
  - destruct (String.eqb _ _).
    + rewrite _calc_median_world. split; [apply _calc_median_finished | exact Hp].
    + rewrite _calc_mean_world. split; [apply _calc_mean_finished | exact Hp].
  - split; [discriminate | exact Hp].
  - destruct Hfin.
Qed.

(** *** The reported height *)








(** ** Per-point probing *)

Lemma batch_state_event w0 e w :
  not_finalize e -> batch_state w0 w ->
  batch_state w0 (set_trace (e :: trace w) w).
Proof.
  intros He (H1 & H2 & H3 & H4). destruct w as [en q p k th b pr h t].
  cbn in *. repeat split; try assumption.
  intros rs [Heq|Hin]; [subst e; destruct He | apply H4, Hin].
Qed.

Ltac batch_kept :=
  intros;
  match goal with
  | H : batch_state _ ?w |- _ =>
      let H1 := fresh in let H2 := fresh in let H3 := fresh in let H4 := fresh in
      destruct H as (H1 & H2 & H3 & H4); destruct w; cbn in *;
      repeat split; assumption
  end.

Lemma run_probe_batch_state g w0 w :
  batch_state w0 w -> batch_state w0 (fst (PrinterProbe.run_probe g w)).
Proof.
  apply (maintains_run_probe (batch_state w0));
    solve [apply batch_state_event | batch_kept].
Qed.

Lemma run_probe_helper g w : helper (fst (PrinterProbe.run_probe g w)) = helper w.
Proof.
  apply (maintains_run_probe (fun w' => helper w' = helper w));
    solve [field_kept | reflexivity].
Qed.

(** [_move_next] on a batch in progress: it hands a batch to the callback
    only when there is a result for every point; it answers [True] only
    when the callback accepted the batch, and [False] only when a point is
    left to probe. *)
Lemma _move_next_spec (w0 w : world) :
  batch_state w0 w ->
  batch_state w0 (fst (ProbePointsHelper._move_next w))
  /\ (snd (ProbePointsHelper._move_next w) = Return false ->
      (List.length (results (helper (fst (ProbePointsHelper._move_next w))))
       < List.length (probe_points (helper w0)))%nat)
  /\ (snd (ProbePointsHelper._move_next w) = Return true ->
      batch_accepted w0 (fst (ProbePointsHelper._move_next w)))
  /\ snd (ProbePointsHelper._move_next w) <> Unfinished.
Proof.
  intros (He & Hp & Hl & Hc).
  unfold batch_state, batch_accepted, complete_batches in *.
  unfold ProbePointsHelper._move_next, ProbePointsHelper.lift_toolhead,
    ProbePointsHelper.finalize, ProbePointsHelper.store_results, manual_move,
    py_index, emit.
  destruct w as [en q p k th b pr h t].
  destruct h as [pts rs sp ls hmz dhmz uo po].
  cbn in He, Hp, Hl, Hc. subst en. rewrite <- Hp in *.
  unfold bind, gets, modify, ret. cbn.
  assert (Hcons : forall e rs',
             not_finalize e ->
             In (Ev_finalize rs') (e :: t) ->
             In (Ev_finalize rs') (trace w0) \/ List.length rs' = List.length pts).
  { intros e rs' Hne [Heq|Hin]; [subst e; destruct Hne | apply Hc, Hin]. }
  destruct (Nat.leb_spec (List.length pts) (List.length rs)) as [Hfull|Hmore].
  - cbn. destruct (finalize_callback (env w0) rs) eqn:Hf; cbn.
    + (* retry *)
      destruct pts as [|pt pts']; cbn.
      * repeat split; try discriminate; try lia.
        intros rs' [Heq|Hin]; [injection Heq as <-; right; cbn in *; lia|].
        eapply Hcons; [|exact Hin]. exact I.
      * repeat split; try discriminate; cbn; try lia.
        intros rs' [Heq|[Heq|Hin]]; try discriminate.
        { injection Heq as <-. right. cbn in *. lia. }
        eapply Hcons; [|exact Hin]. exact I.
    + repeat split; try discriminate; try lia; eauto.
      intros rs' [Heq|Hin]; [injection Heq as <-; right; lia|].
      eapply Hcons; [|exact Hin]. exact I.
  - cbn. destruct (nth_error pts (List.length rs)) as [pt|] eqn:Hn; cbn.
    + repeat split; try discriminate; try lia.
      intros rs' [Heq|Hin]; [discriminate|].
      eapply Hcons; [|exact Hin]. exact I.
    + repeat split; try discriminate; try lia.
      intros rs' Hin. eapply Hcons; [|exact Hin]. exact I.
Qed.

Lemma probe_each_point_spec (g : gcmd) (w0 : world) (fuel : nat) :
  forall w w' r,
    batch_state w0 w ->
    ProbePointsHelper.probe_each_point fuel g w = (w', r) ->
    batch_state w0 w' /\ (r = Return tt -> batch_accepted w0 w').
Proof.
  induction fuel as [|fuel IH]; intros w w' r Hw;
    cbn [ProbePointsHelper.probe_each_point].
  - intros E. injection E as <- <-. split; [exact Hw | discriminate].
  - unfold bind at 1.
    destruct (_move_next_spec w0 w Hw) as (Hk & Hfalse & Htrue & _).
    destruct (ProbePointsHelper._move_next w) as [w1 [[|]|e|]];
      cbn [fst snd] in *.
    + intros E. injection E as <- <-.
      split; [exact Hk | intros _; apply Htrue; reflexivity].
    + specialize (Hfalse eq_refl).
      unfold bind at 1.
      pose proof (run_probe_batch_state g w0 w1 Hk) as Hk2.
      pose proof (run_probe_helper g w1) as Hh.
      destruct (PrinterProbe.run_probe g w1) as [w2 [pos|e|]];
        cbn [fst snd] in *;
        [|intros E; injection E as <- <-; split; [exact Hk2 | discriminate]..].
      unfold bind at 1, gets. unfold bind at 1,
        ProbePointsHelper.store_results, modify.
      apply IH.
      destruct Hk2 as (H1 & H2 & H3 & H4).
      rewrite <- Hh in Hfalse.
      destruct w2 as [en q p k th b pr h t]. destruct h. cbn in *.
      repeat split; try assumption.
      cbn [results helper]. rewrite length_app. cbn [List.length]. lia.
    + intros E. injection E as <- <-. split; [exact Hk | discriminate].
    + intros E. injection E as <- <-. split; [exact Hk | discriminate].
Qed.

(** X9.  Per-point probing never hands a partial batch to the finalize
    callback: started with no more results than points, every call of the
    callback it makes gets exactly one result per probe point.  It returns
    only right after such a call to which the callback did not answer
    "retry". *)
Theorem X9_per_point_probing_hands_over_complete_batches
    (fuel : nat) (g : gcmd) (w : world) :
  (List.length (results (helper w)) <= List.length (probe_points (helper w)))%nat ->
  let w' := fst (ProbePointsHelper.probe_each_point fuel g w) in
  complete_batches (List.length (probe_points (helper w))) (trace w) (trace w')
  /\ (snd (ProbePointsHelper.probe_each_point fuel g w) = Return tt ->
      batch_accepted w w').
Proof.
  intros Hlen. cbv zeta.
  assert (Hw : batch_state w w).
  { repeat split; try assumption. intros rs Hin. left. exact Hin. }
  destruct (probe_each_point_spec g w fuel w _ _ Hw (surjective_pairing _))
    as ((_ & _ & _ & Hc) & Hret).
  split; [exact Hc | exact Hret].
Qed.

(** X9, witness.  The five points of the scan bench probed one by one: the
    batch returns and the callback was called once, with five results. *)
Lemma X9_per_point_probing_hands_over_complete_batches_witness :
  complete_batches 5 (trace (scan_bench 100 None))
    (trace (fst (ProbePointsHelper.probe_each_point 10 mesh_calibrate
                   (scan_bench 100 None))))
  /\ batch_accepted (scan_bench 100 None)
       (fst (ProbePointsHelper.probe_each_point 10 mesh_calibrate
               (scan_bench 100 None))).
Proof.
  destruct (X9_per_point_probing_hands_over_complete_batches
              10 mesh_calibrate (scan_bench 100 None)) as [Hc Hret].
  - cbn. lia.
  - split; [exact Hc|]. apply Hret. vm_compute. reflexivity.
Defined.

(** ** Continuous scan *)

Section ScanState.

Variable z0 : Q.
Variable w0 : world.

Lemma maintains_scan_emit e : maintains (scan_state z0 w0) (emit e).
Proof. intros w (H1 & H2 & H3 & H4). destruct w. repeat split; assumption. Qed.

Lemma maintains_scan_manual_move x y v :
  maintains (scan_state z0 w0) (manual_move x y None v).
Proof.
  intros w (H1 & H2 & H3 & H4). destruct w as [e q p k [pos homed] b pr h t].
  repeat split; assumption.
Qed.

Lemma scan_state_tick n w : scan_state z0 w0 w -> scan_state z0 w0 (set_tick n w).
Proof. intros (H1 & H2 & H3 & H4). destruct w. repeat split; assumption. Qed.

Lemma scan_state_read fore_r w :
  scan_state z0 w0 w -> scan_state z0 w0 (read_world fore_r w).
Proof.
  intros (H1 & H2 & H3 & H4).
  destruct (read_world_frame fore_r w) as (E1 & _ & _ & E2 & _ & E3).
  unfold scan_state. rewrite E1, E2, E3. repeat split; assumption.
Qed.

(** A reading that mode 0 hands back was accepted from a raw code of at
    most 380. *)
Lemma read_result_0_in_range a v : read_result 0 a = Return v -> a <= 380.
Proof.
  rewrite read_result_0.
  destruct (1024 <=? a); [discriminate|].
  destruct (Z.ltb_spec 380 a); [discriminate | intros _; assumption].
Qed.

Lemma scan_state_recorded pt w v :
  read_result 0 (accepted_code w) = Return v ->
  scan_state z0 w0 w -> scan_state z0 w0 (recorded pt w).
Proof.
  intros Hr (H1 & H2 & H3 & H4). apply read_result_0_in_range in Hr.
  unfold recorded.
  destruct (read_world_frame 0 w) as (E1 & _ & _ & E2 & _ & E3).
  remember (read_world 0 w) as w1 eqn:Hw1. clear Hw1.
  remember (accepted_code w) as a eqn:Ha. clear Ha.
  destruct w1 as [e1 q1 p1 k1 th1 b1 pr1 h1 t1]. cbn in E1, E2, E3. subst.
  destruct (helper w) as [pts rs sp ls hmz dhmz uo po] eqn:Hh.
  cbn in *. repeat split; try assumption.
  apply Forall_app. split; [exact H4|].
  constructor; [|constructor]. exists a. split; [exact Hr | reflexivity].
Qed.

Lemma maintains_scan_loop (fuel : nat) (pts : list (Q * Q)) (start T : Q) :
  forall est k,
    maintains (scan_state z0 w0) (ProbePointsHelper.scan_loop fuel pts start T est k).
Proof.
  induction fuel as [|fuel IH]; intros est k w H; [exact H|].
  rewrite scan_loop_pass. cbv zeta.
  destruct (fault _); [exact H|].
  destruct (_ || _)%bool; [|exact H].
  destruct (negb (can_pause _)); [exact H|].
  destruct (ProbePointsHelper.sample_due _ _ _ _ _).
  - destruct (nth_error pts k) as [pt|]; [|exact H].
    destruct (read_result 0 _) eqn:Hr.
    + apply IH, scan_state_tick. eapply scan_state_recorded; eassumption.
    + apply scan_state_read, H.
    + apply scan_state_read, H.
  - apply IH, scan_state_tick, H.
Qed.

#[local] Hint Resolve maintains_scan_emit maintains_scan_manual_move
  maintains_scan_loop : frame.



End ScanState.




(** ** Batches of [start_probe] *)

Lemma per_point_clears_pending fuel g w w' :
  per_point fuel g w = (w', Return tt) ->
  multi_probe_pending (probe w') = false.
Proof.
  unfold per_point, bind.
  destruct (ProbePointsHelper.probe_each_point fuel g w) as [w1 [[]|e|]];
    try discriminate.
  pose proof (probe_multi_probe_end_clears_pending w1) as Hp.
  destruct (PrinterProbe.multi_probe_end w1) as [w2 [[]|e|]]; try discriminate.
  intros E. injection E as <-. exact Hp.
Qed.

Lemma start_probe_returns_automatic fuel g w w' :
  ProbePointsHelper.start_probe fuel g w = (w', Return tt) ->
  METHOD g = "automatic"%string.
Proof.
  destruct (String.eqb_spec (METHOD g) "automatic") as [|Hne]; [intros _; assumption|].
  apply String.eqb_neq in Hne.
  unfold ProbePointsHelper.start_probe, ProbePointsHelper.store_results,
    bind, modify, unfinished.
  rewrite Hne. cbn. discriminate.
Qed.

(** X10.  A [start_probe] that returns has closed the probing session it
    opened, on the continuous-scan path as on the per-point path: no
    session is pending afterwards. *)
Theorem X10_start_probe_that_returns_has_closed_the_session
    (fuel : nat) (g : gcmd) (w w' : world) :
  ProbePointsHelper.start_probe fuel g w = (w', Return tt) ->
  multi_probe_pending (probe w') = false.
Proof.
  intros E. pose proof (start_probe_returns_automatic _ _ _ _ E) as Hm.
  rewrite (start_probe_run fuel g w Hm) in E.
  destruct (prepared g w) as [w0 [[]|e|]]; try discriminate.
  rewrite try_fast_probe_run in E.
  destruct (String.eqb _ _); [|eapply per_point_clears_pending, E].
  destruct (no_stop_probe _); [|eapply per_point_clears_pending, E].
  destruct (ProbePointsHelper.fast_probe fuel w0) as [w1 [r|e|]];
    try discriminate.
  - pose proof (probe_multi_probe_end_clears_pending w1) as Hp.
    destruct (PrinterProbe.multi_probe_end w1) as [w2 [[]|e|]];
      try discriminate.
    + injection E as <-. exact Hp.
    + destruct (exn_kind_eqb _ _); [|discriminate].
      eapply per_point_clears_pending, E.
  - destruct (exn_kind_eqb _ _); [|discriminate].
    eapply per_point_clears_pending, E.
Qed.

(** X10, witness.  The five points of the scan bench, probed one by one. *)
Lemma X10_start_probe_that_returns_has_closed_the_session_witness :
  multi_probe_pending
    (probe (fst (ProbePointsHelper.start_probe 10 mesh_calibrate
                   (scan_bench 100 None)))) = false.
Proof.
  apply (X10_start_probe_that_returns_has_closed_the_session
           10 mesh_calibrate (scan_bench 100 None)).
  vm_compute. reflexivity.
Defined.

(** X11.  [start_probe] refuses a HORIZONTAL_MOVE_Z below the probe's
    z_offset before anything happens: it raises the command error without
    a move, a probe, a sensor read, a response or a session having been
    started; only its own fields are set. *)
Theorem X11_start_probe_refuses_a_move_height_below_the_offset
    (fuel : nat) (g : gcmd) (w : world) :
  METHOD g = "automatic"%string ->
  (HORIZONTAL_MOVE_Z g < z_offset (probe w))%Q ->
  snd (ProbePointsHelper.start_probe fuel g w)
    = Raise (Exn command_error
               (Text "horizontal_move_z can't be less than probe's z_offset"))
  /\ trace (fst (ProbePointsHelper.start_probe fuel g w)) = trace w
  /\ toolhead (fst (ProbePointsHelper.start_probe fuel g w)) = toolhead w
  /\ probes (fst (ProbePointsHelper.start_probe fuel g w)) = probes w
  /\ queries (fst (ProbePointsHelper.start_probe fuel g w)) = queries w
  /\ probe (fst (ProbePointsHelper.start_probe fuel g w)) = probe w
  /\ mcu_probe (fst (ProbePointsHelper.start_probe fuel g w)) = mcu_probe w.
Proof.
  intros Hm Hlow.
  assert (Hrun : ProbePointsHelper.start_probe fuel g w
                 = (fst (prepared g w),
                    Raise (Exn command_error
                             (Text "horizontal_move_z can't be less than probe's z_offset")))
                   /\ trace (fst (prepared g w)) = trace w
                   /\ toolhead (fst (prepared g w)) = toolhead w
                   /\ probes (fst (prepared g w)) = probes w
                   /\ queries (fst (prepared g w)) = queries w
                   /\ probe (fst (prepared g w)) = probe w
                   /\ mcu_probe (fst (prepared g w)) = mcu_probe w).
  { rewrite (start_probe_run fuel g w Hm).
    unfold prepared, ProbePointsHelper.automatic_setup,
      ProbePointsHelper.store_results, PrinterProbe.get_offsets,
      PrinterProbe.get_lift_speed, bind, gets, modify.
    destruct w as [e q p k th b pr h t]. destruct h. cbn in Hlow |- *.
    assert (Hc : Qle_bool (z_offset pr) (HORIZONTAL_MOVE_Z g) = false).
    { destruct (Qle_bool _ _) eqn:Hle; [|reflexivity].
      apply Qle_bool_iff in Hle. lra. }
    rewrite Hc. cbn. repeat split. }
  destruct Hrun as (-> & Hrest). cbn [fst snd].
  split; [reflexivity | exact Hrest].
Qed.

(** X11, witness.  A probe with z_offset 0 and a BED_MESH_CALIBRATE with
    HORIZONTAL_MOVE_Z=-1. *)
Lemma X11_start_probe_refuses_a_move_height_below_the_offset_witness :
  snd (ProbePointsHelper.start_probe 10 (with_move_z (-1) mesh_calibrate)
         (scan_bench 100 None))
    = Raise (Exn command_error
               (Text "horizontal_move_z can't be less than probe's z_offset"))
  /\ trace (fst (ProbePointsHelper.start_probe 10 (with_move_z (-1) mesh_calibrate)
                   (scan_bench 100 None))) = [].
Proof.
  destruct (X11_start_probe_refuses_a_move_height_below_the_offset
              10 (with_move_z (-1) mesh_calibrate) (scan_bench 100 None))
    as (Hr & Ht & _).
  - reflexivity.
  - cbn. lra.
  - split; [exact Hr | exact Ht].
Defined.

(** ** Move time *)



(** ** PROBE_ACCURACY *)

Lemma _probe_returns v w w1 pos :
  PrinterProbe._probe v w = (w1, Return pos) ->
  probes w1 = S (probes w) /\ probe w1 = probe w.
Proof.
  unfold PrinterProbe._probe, try_except, PrinterProbe.probing_move_call,
    get_position.
  destruct w as [e q p k [pos0 homed] b pr h t].
  run_M. destruct homed; cbn; [|discriminate].
  destruct (probing_move e p) as [epos|reason]; cbn; [|discriminate].
  intros E. injection E as <- _. split; reflexivity.
Qed.

Lemma manual_move_run x y z v w :
  exists w1, manual_move x y z v w = (w1, Return tt)
             /\ probes w1 = probes w /\ probe w1 = probe w.
Proof. destruct w. eexists. split; [reflexivity|]. split; reflexivity. Qed.

(** The loop probes once for every sample that is missing. *)
Lemma accuracy_loop_returns g fuel :
  forall ps w w' ps',
    accuracy_loop fuel g ps w = (w', Return ps') ->
    (List.length ps <= SAMPLES g)%nat ->
    (probes w' + List.length ps = probes w + SAMPLES g)%nat
    /\ List.length ps' = SAMPLES g
    /\ probe w' = probe w.
Proof.
  induction fuel as [|fuel IH]; intros ps w w' ps'; cbn [accuracy_loop];
    destruct (Nat.ltb_spec (List.length ps) (SAMPLES g)) as [Hmore|Hfull];
    try discriminate;
    try (intros E Hlen; injection E as <- <-; repeat split; lia).
  unfold bind at 1.
  destruct (PrinterProbe._probe (PROBE_SPEED g) w) as [w1 [pos|e|]] eqn:Ep;
    try discriminate.
  apply _probe_returns in Ep. destruct Ep as [Hp1 Hpr1].
  unfold bind at 1, PrinterProbe._move.
  match goal with
  | |- context [manual_move ?x ?y ?z ?v w1] =>
      destruct (manual_move_run x y z v w1) as (w2 & -> & Hp2 & Hpr2)
  end.
  intros E _. apply IH in E; [|rewrite length_app; cbn; lia].
  rewrite length_app in E. cbn [List.length] in E.
  destruct E as (Hc & Hl & Hpr). repeat split; [lia | exact Hl | congruence].
Qed.

Lemma accuracy_loop_finishes g fuel :
  forall ps w,
    (SAMPLES g <= List.length ps + fuel)%nat ->
    snd (accuracy_loop fuel g ps w) <> Unfinished.
Proof.
  induction fuel as [|fuel IH]; intros ps w Hfuel; cbn [accuracy_loop];
    destruct (Nat.ltb_spec (List.length ps) (SAMPLES g)) as [Hmore|Hfull];
    try discriminate; try lia.
  unfold bind at 1.
  pose proof (_probe_finished (PROBE_SPEED g) w) as Hp.
  destruct (PrinterProbe._probe (PROBE_SPEED g) w) as [w1 [pos|e|]];
    cbn [snd] in *; try discriminate; try congruence.
  unfold bind at 1, PrinterProbe._move.
  match goal with
  | |- context [manual_move ?x ?y ?z ?v w1] =>
      destruct (manual_move_run x y z v w1) as (w2 & -> & _)
  end.
  apply IH. rewrite length_app. cbn. lia.
Qed.

(** X13.  PROBE_ACCURACY always comes to an end.  When it returns it has
    made exactly [SAMPLES] probing moves, none repeated and none skipped
    whatever the spread of the heights, there was at least one sample, and
    no session is pending: it opens a session of its own whatever the state
    before, and closes it. *)
Theorem X13_probe_accuracy_probes_exactly_samples (g : gcmd) (w : world) :
  snd (cmd_PROBE_ACCURACY g w) <> Unfinished
  /\ (snd (cmd_PROBE_ACCURACY g w) = Return tt ->
      probes (fst (cmd_PROBE_ACCURACY g w)) = (probes w + SAMPLES g)%nat
      /\ (1 <= SAMPLES g)%nat
      /\ multi_probe_pending (probe (fst (cmd_PROBE_ACCURACY g w))) = false).
Proof.
  destruct (cmd_PROBE_ACCURACY g w) as [w' r] eqn:E. cbn [fst snd].
  revert E. unfold cmd_PROBE_ACCURACY.
  unfold bind at 1, get_position, gets.
  unfold bind at 1, respond_info, emit at 1, modify.
  unfold bind at 1.
  match goal with
  | |- context [PrinterProbe.multi_probe_begin ?w0'] =>
      destruct (probe_multi_probe_begin_returns w0') as [w1 Hb];
      pose proof (probe_multi_probe_begin_probes w0') as Hp1;
      rewrite Hb in Hp1 |- *; cbn [fst] in Hp1;
      assert (Hp0 : probes w0' = probes w) by (destruct w; reflexivity)
  end.
  unfold bind at 1.
  pose proof (accuracy_loop_finishes g (SAMPLES g) [] w1) as Hfin.
  destruct (accuracy_loop (SAMPLES g) g [] w1) as [w2 [ps|e|]] eqn:El;
    cbn [snd] in Hfin;
    [|intros E; injection E as <- <-; split; [discriminate|discriminate]
     |exfalso; apply Hfin; [cbn; lia | reflexivity]].
  apply accuracy_loop_returns in El; [|cbn; lia].
  cbn [List.length] in El. destruct El as (Hc & Hl & _).
  unfold bind at 1.
  pose proof (probe_multi_probe_end_finished w2) as Hef.
  pose proof (probe_multi_probe_end_probes w2) as Hep.
  pose proof (probe_multi_probe_end_clears_pending w2) as Hec.
  destruct (PrinterProbe.multi_probe_end w2) as [w3 [[]|e|]];
    cbn [fst snd] in *;
    [|intros E; injection E as <- <-; split; discriminate | congruence].
  destruct ps as [|p ps]; cbn [map].
  { intros E. injection E as <- <-. split; discriminate. }
  unfold bind at 1.
  destruct (_calc_mean_run (p :: ps) w3) as (m & -> & _); [discriminate|].
  unfold bind at 1.
  pose proof (_calc_median_world (p :: ps) w3) as Hmw.
  pose proof (_calc_median_finished (p :: ps) w3) as Hmf.
  destruct (PrinterProbe._calc_median (p :: ps) w3) as [w4 [md|e|]];
    cbn [fst snd] in *; subst;
    [|intros E; injection E as <- <-; split; discriminate | congruence].
  unfold emit, modify. intros E. injection E as <- <-.
  split; [discriminate|]. intros _.
  destruct w3 as [e3 q3 p3 k3 th3 b3 pr3 h3 t3]. cbn in *.
  repeat split; try assumption; lia.
Qed.

(** X13, witness.  Two probing moves that end 0.2 mm apart, twice the
    tolerance of the probe: PROBE_ACCURACY returns after these two. *)
Lemma X13_probe_accuracy_probes_exactly_samples_witness :
  snd (cmd_PROBE_ACCURACY (two_samples "PROBE_ACCURACY")
         (probing_at [1; 1.2]%Q (bench [] 0))) = Return tt
  /\ probes (fst (cmd_PROBE_ACCURACY (two_samples "PROBE_ACCURACY")
                    (probing_at [1; 1.2]%Q (bench [] 0)))) = 2%nat.
Proof.
  assert (Hrun : snd (cmd_PROBE_ACCURACY (two_samples "PROBE_ACCURACY")
                        (probing_at [1; 1.2]%Q (bench [] 0))) = Return tt)
    by (vm_compute; reflexivity).
  split; [exact Hrun|].
  destruct (X13_probe_accuracy_probes_exactly_samples
              (two_samples "PROBE_ACCURACY")
              (probing_at [1; 1.2]%Q (bench [] 0))) as [_ H].
  destruct (H Hrun) as (Hp & _). exact Hp.
Defined.

(** ** Samples in another order *)


















(** ** Direct reading *)





Section DirectRead.

Variable g : gcmd.
Variable w : world.

Hypothesis Hcmd : PrinterProbe.direct_read_command g = true.
Hypothesis Hrange : forall k, sensor (env w) k <= 380.
Hypothesis Htol :
  forall j k, (calibrated (sensor (env w) j) - calibrated (sensor (env w) k)
               <= SAMPLES_TOLERANCE g)%Q.






End DirectRead.





